(** * Weather proxy: a shallow embedding of [weather_proxy.py]

    The proxy serves one route.  A request on that route reads a shared,
    lock-protected cache ([_get_cached_weather]); on a miss it runs the
    fetch pipeline ([_fetch_from_nws]), which loads [config.json] and
    performs up to four upstream requests.

    Conventions of the embedding:
    - a Python value obtained from [json.load] is a [json] term; a [dict]
      is an association list in insertion order;
    - a Python [str] is the [string] of the bytes of its UTF-8 encoding
      (a surrogate is encoded like any other code point), so a code point
      above 127 takes two to four characters of the [string];
    - a Python [int] is a [Z], a [float] an exact rational (NaN and the
      infinities are left out);
    - wall-clock readings ([time.time()]) are exact rationals;
    - an exception is a value of [exn]; code that may raise returns a
      [result];
    - the file system and the network are an [Env] of oracles indexed by
      the length of the event trace, and every access is logged in that
      trace. *)

From Stdlib Require Import Ascii String DecimalString QArith Lqa.
From stdpp Require Import base list strings.

Local Open Scope string_scope.
Local Open Scope list_scope.

(** ** Python values *)

#[warnings="-register-all"]
Inductive json :=
| JNull
| JBool (b : bool)
| JInt (z : Z)
| JNum (q : Q)
| JStr (s : string)
| JList (l : list json)
| JDict (d : list (string * json)).

(** The exception classes the program names in its [except] clauses or can
    raise itself, and [OtherError] for all the remaining classes. *)
Inductive exn :=
| ProxyError (msg : string)
| URLError (msg : string)
| TimeoutError (msg : string)
| ValueError (msg : string)
| AttributeError (msg : string)
| TypeError (msg : string)
| KeyError (msg : string)
| OtherError (msg : string).

(** [str(exc)] *)
Definition exn_str (e : exn) : string :=
  match e with
  | ProxyError m | URLError m | TimeoutError m | ValueError m
  | AttributeError m | TypeError m | KeyError m | OtherError m => m
  end.

Inductive result (A : Type) :=
| Ok (a : A)
| Raise (e : exn).
Arguments Ok {A} a.
Arguments Raise {A} e.

(** ** Strings *)

Definition code (c : ascii) : N := N_of_ascii c.

(** [str.isspace] on one character, given by its encoding.  The white space
    of Python is U+0009 to U+000D, U+001C to U+0020, U+0085, U+00A0, U+1680,
    U+2000 to U+200A, U+2028, U+2029, U+202F, U+205F and U+3000. *)
Definition is_space (ch : string) : bool :=
  match ch with
  | String a EmptyString =>
      ((9 <=? code a) && (code a <=? 13) || (28 <=? code a) && (code a <=? 32))%N
  | String a (String b EmptyString) =>
      ((code a =? 194) && ((code b =? 133) || (code b =? 160)))%N
  | String a (String b (String c EmptyString)) =>
      ((code a =? 225) && (code b =? 154) && (code c =? 128)
       || (code a =? 226) && (code b =? 128)
          && ((128 <=? code c) && (code c <=? 138)
              || (code c =? 168) || (code c =? 169) || (code c =? 175))
       || (code a =? 226) && (code b =? 129) && (code c =? 159)
       || (code a =? 227) && (code b =? 128) && (code c =? 128))%N
  | _ => false
  end.

(** [s.lstrip()] *)
Fixpoint lstrip (s : string) : string :=
  match s with
  | String a s1 =>
      if is_space (String a EmptyString) then lstrip s1
      else
        match s1 with
        | String b s2 =>
            if is_space (String a (String b EmptyString)) then lstrip s2
            else
              match s2 with
              | String c s3 =>
                  if is_space (String a (String b (String c EmptyString))) then lstrip s3
                  else s
              | EmptyString => s
              end
        | EmptyString => s
        end
  | EmptyString => s
  end.

(** [s.rstrip()]: once the tail is stripped, what is left ends with a white
    space only when it is one. *)
Fixpoint rstrip (s : string) : string :=
  match s with
  | EmptyString => EmptyString
  | String c s' =>
      let r := rstrip s' in
      if is_space (String c r) then EmptyString else String c r
  end.

(** [s.strip()] *)
Definition strip (s : string) : string := rstrip (lstrip s).

(** [s.rstrip(c)] for a character [c] of one byte *)
Fixpoint rstrip_by (p : ascii -> bool) (s : string) : string :=
  match s with
  | EmptyString => EmptyString
  | String c s' =>
      match rstrip_by p s' with
      | EmptyString => if p c then EmptyString else String c EmptyString
      | r => String c r
      end
  end.

(** The number of bytes of the character whose encoding starts with [a]. *)
Definition char_width (a : ascii) : nat :=
  if (code a <? 192)%N then 1
  else if (code a <? 224)%N then 2
  else if (code a <? 240)%N then 3
  else 4.

(** Whether [s.encode("latin-1")] succeeds: every code point is below 256,
    so every character is one byte below 128, or the byte 194 or 195 and
    one more. *)
Fixpoint latin1 (s : string) : bool :=
  match s with
  | EmptyString => true
  | String a s1 =>
      if (code a <? 128)%N then latin1 s1
      else if ((code a =? 194) || (code a =? 195))%N then
        match s1 with
        | String _ s2 => latin1 s2
        | EmptyString => false
        end
      else false
  end.

(** [c in s] for a character [c] of one byte *)
Fixpoint contains (c : ascii) (s : string) : bool :=
  match s with
  | EmptyString => false
  | String c' s' => Ascii.eqb c c' || contains c s'
  end.

Definition is_empty (s : string) : bool :=
  match s with EmptyString => true | _ => false end.

(** ** One-level operations on Python values *)

(** [bool(v)] *)
Definition truthy (v : json) : bool :=
  match v with
  | JNull => false
  | JBool b => b
  | JInt z => negb (Z.eqb z 0)
  | JNum q => negb (Qeq_bool q 0)
  | JStr s => negb (is_empty s)
  | JList l => match l with [] => false | _ => true end
  | JDict d => match d with [] => false | _ => true end
  end.

(** [a or b] *)
Definition py_or (a b : json) : json := if truthy a then a else b.

Definition type_name (v : json) : string :=
  match v with
  | JNull => "NoneType"
  | JBool _ => "bool"
  | JInt _ => "int"
  | JNum _ => "float"
  | JStr _ => "str"
  | JList _ => "list"
  | JDict _ => "dict"
  end.

Definition no_attribute (v : json) (attr : string) : exn :=
  AttributeError ("'" +:+ type_name v +:+ "' object has no attribute '" +:+ attr +:+ "'").

Fixpoint dict_get (d : list (string * json)) (k : string) : option json :=
  match d with
  | [] => None
  | (k', v) :: d' => if String.eqb k k' then Some v else dict_get d' k
  end.

(** [d[k] = v]: the key keeps its place when it is already there. *)
Fixpoint dict_set (d : list (string * json)) (k : string) (v : json) : list (string * json) :=
  match d with
  | [] => [(k, v)]
  | (k', v') :: d' => if String.eqb k k' then (k, v) :: d' else (k', v') :: dict_set d' k v
  end.

(** [v.get(k, default)] *)
Definition py_get_default (v : json) (k : string) (dflt : json) : result json :=
  match v with
  | JDict d => Ok (default dflt (dict_get d k))
  | _ => Raise (no_attribute v "get")
  end.

(** [v.get(k)] *)
Definition py_get (v : json) (k : string) : result json := py_get_default v k JNull.

(** [v[0]] for a truthy [v] *)
Definition py_index0 (v : json) : result json :=
  match v with
  | JList (x :: _) => Ok x
  | JList [] => Raise (OtherError "list index out of range")
  | JStr (String c s) => Ok (JStr (substring 0 (char_width c) (String c s)))
  | JStr EmptyString => Raise (OtherError "string index out of range")
  | JDict _ => Raise (KeyError "0")
  | _ => Raise (TypeError ("'" +:+ type_name v +:+ "' object is not subscriptable"))
  end.

(** [v + s] for a string literal [s] *)
Definition py_add_str (v : json) (s : string) : result string :=
  match v with
  | JStr s' => Ok (s' +:+ s)
  | JList _ =>
      Raise (TypeError ("can only concatenate list (not " +:+ String "034"%char "str"
                        +:+ String "034"%char ") to list"))
  | _ => Raise (TypeError ("unsupported operand type(s) for +: '" +:+ type_name v +:+ "' and 'str'"))
  end.

(** [v.strip()] *)
Definition py_strip (v : json) : result string :=
  match v with
  | JStr s => Ok (strip s)
  | _ => Raise (no_attribute v "strip")
  end.

(** [v[k] = x] on a value on which [.get] has already succeeded *)
Definition py_setitem (v : json) (k : string) (x : json) : result json :=
  match v with
  | JDict d => Ok (JDict (dict_set d k x))
  | _ => Raise (TypeError ("'" +:+ type_name v +:+ "' object does not support item assignment"))
  end.

(** ** Errors and effects *)

Definition rbind {A B : Type} (r : result A) (k : A -> result B) : result B :=
  match r with
  | Ok a => k a
  | Raise e => Raise e
  end.

(** What [config.json] holds when it is read. *)
Inductive config_file :=
| FileMissing
| FileUnreadable (e : exn)
| FileJson (data : json).

Definition headers := list (string * string).

(** Every access to the outside is logged together with its outcome; the
    newest event is at the head of the trace. *)
Inductive event :=
| EvConfig (f : config_file)
| EvRequest (url : json) (hs : headers) (response : result json).

Definition world := list event.

(** The outside: the file system and the upstream server, both allowed to
    change as the run goes on. *)
Record Env := {
  config_json : nat -> config_file;
  urlopen : nat -> json -> headers -> result json;
}.

(** Library functions the program calls and this development leaves
    abstract: [float] on a [str] ([None] when it raises [ValueError]) and on
    an [int] ([None] when it raises [OverflowError]), [repr] of a [str], the
    text of the [UnicodeEncodeError] that [s.encode("latin-1")] raises, the
    formatting of a [float] in an f-string, [urllib.parse.urljoin], which
    raises [ValueError] on some malformed URLs, and [json.dumps]. *)
Record PyLib := {
  float_of_str : string -> option Q;
  float_of_int : Z -> option Q;
  repr_str : string -> string;
  encode_error : string -> string;
  float_repr : Q -> string;
  urljoin : string -> string -> result string;
  json_dumps : json -> string;
}.

Definition M (A : Type) : Type := world -> result A * world.

Definition ret {A : Type} (a : A) : M A := fun w => (Ok a, w).
Definition raise {A : Type} (e : exn) : M A := fun w => (Raise e, w).
Definition lift {A : Type} (r : result A) : M A := fun w => (r, w).

Definition bind {A B : Type} (c : M A) (k : A -> M B) : M B :=
  fun w =>
    match c w with
    | (Ok a, w') => k a w'
    | (Raise e, w') => (Raise e, w')
    end.

(** [try: c  except <classes>: h] *)
Definition try_except {A : Type} (c : M A) (caught : exn -> bool) (h : M A) : M A :=
  fun w =>
    match c w with
    | (Ok a, w') => (Ok a, w')
    | (Raise e, w') => if caught e then h w' else (Raise e, w')
    end.

Declare Scope py_scope.
Delimit Scope py_scope with py.
Notation "'let*' x ':=' c 'in' k" := (bind c (fun x => k))
  (at level 10, x name, c at level 100, k at level 200) : py_scope.
Notation "'let?' x ':=' r 'in' k" := (rbind r (fun x => k))
  (at level 10, x name, r at level 100, k at level 200) : py_scope.
Local Open Scope py_scope.

(** ** [_format_user_agent] *)

Definition _format_user_agent (raw : option string) : string :=
  let raw := strip (default "" raw) in
  if is_empty raw then "LegacyDashboardProxy/1.0 (contact unavailable)"
  else if negb (contains "/" raw) && negb (contains "(" raw)
       then "LegacyDashboardProxy/1.0 (" +:+ raw +:+ ")"
       else raw.

(** ** [_load_config] *)

(** [float(v)] for [v] other than [None] *)
Definition py_float (L : PyLib) (v : json) : result Q :=
  match v with
  | JNum q => Ok q
  | JInt z =>
      match float_of_int L z with
      | Some q => Ok q
      | None => Raise (OtherError "int too large to convert to float")
      end
  | JBool b => Ok (if b then 1%Q else 0%Q)
  | JStr s =>
      match float_of_str L s with
      | Some q => Ok q
      | None => Raise (ValueError ("could not convert string to float: " +:+ repr_str L s))
      end
  | _ => Raise (TypeError ("float() argument must be a string or a real number, not '"
                           +:+ type_name v +:+ "'"))
  end.

Definition is_none (v : json) : bool :=
  match v with JNull => true | _ => false end.

Definition parse_config (L : PyLib) (data : json) : result (Q * Q * string) :=
  let? weather := py_get_default data "weather" (JDict []) in
  let? latitude := py_get weather "latitude" in
  let? longitude := py_get weather "longitude" in
  let? userAgent := py_get weather "userAgent" in
  let? contact := py_strip (py_or userAgent (JStr "")) in
  if is_none latitude || is_none longitude
  then Raise (ProxyError "config.json must supply weather.latitude and weather.longitude")
  else
    let? lat := py_float L latitude in
    let? lon := py_float L longitude in
    Ok (lat, lon, contact).

(** Lines 44 to 48, on the file as it is found. *)
Definition read_config (L : PyLib) (f : config_file) : result (Q * Q * string) :=
  match f with
  | FileMissing => Raise (ProxyError "config.json not found alongside weather_proxy.py")
  | FileUnreadable e => Raise e
  | FileJson data => parse_config L data
  end.

Definition _load_config (L : PyLib) (E : Env) : M (Q * Q * string) :=
  fun w =>
    let f := config_json E (length w) in
    (read_config L f, EvConfig f :: w).

(** ** [_make_request] *)

(** The header dictionary of the program: a value of [None] means the
    header is not sent. *)
Definition sent_headers (hs : list (string * option string)) : headers :=
  omap (fun '(k, v) => match v with Some s => Some (k, s) | None => None end) hs.

Definition _make_request (E : Env) (url : json) (hs : list (string * option string)) : M json :=
  fun w =>
    let r := urlopen E (length w) url (sent_headers hs) in
    (r, EvRequest url (sent_headers hs) r :: w).

(** ** [_fetch_from_nws] *)

(** The classes of [except (urllib.error.URLError, ProxyError, TimeoutError, ValueError)]. *)
Definition observation_caught (e : exn) : bool :=
  match e with
  | URLError _ | ProxyError _ | TimeoutError _ | ValueError _ => true
  | _ => false
  end.

(** Lines 90 to 96: keep only the first six forecast periods. *)
Definition truncate_periods (forecast_data : json) : result json :=
  let? properties := py_get forecast_data "properties" in
  let properties := py_or properties (JDict []) in
  let? periods := py_get properties "periods" in
  match periods with
  | JList ((_ :: _) as ps) =>
      let? properties := py_setitem properties "periods" (JList (take 6 ps)) in
      py_setitem forecast_data "properties" properties
  | _ => Ok forecast_data
  end.

(** Lines 98 to 109: the latest observation of the first station. *)
Definition fetch_observation (L : PyLib) (E : Env) (stations_url : json)
    (hs : list (string * option string)) : M json :=
  if truthy stations_url then
    let* stations_data := _make_request E stations_url hs in
    let* features := lift (py_get stations_data "features") in
    let features := py_or features (JList []) in
    if truthy features then
      let* station := lift (py_index0 features) in
      let* latest_url := lift (py_get station "id") in
      if truthy latest_url then
        let* base := lift (py_add_str latest_url "/") in
        let* latest_url := lift (urljoin L base "observations/latest") in
        try_except (_make_request E (JStr latest_url) hs) observation_caught (ret JNull)
      else ret JNull
    else ret JNull
  else ret JNull.

(** [observation.get("properties") if isinstance(observation, dict) else None] *)
Definition observation_properties (observation : json) : json :=
  match observation with
  | JDict d => default JNull (dict_get d "properties")
  | _ => JNull
  end.

(** Lines 73 to 77. *)
Definition request_headers (contact : string) : list (string * option string) :=
  [("Accept", Some "application/geo+json");
   ("User-Agent", Some (_format_user_agent (Some contact)));
   ("From", if is_empty contact then None else Some contact)].

(** Line 79. *)
Definition point_url (L : PyLib) (latitude longitude : Q) : string :=
  "https://api.weather.gov/points/" +:+ float_repr L latitude
  +:+ "," +:+ float_repr L longitude.

(** Lines 82 to 84: the forecast URL and the stations URL of a points
    response. *)
Definition point_urls (point_data : json) : result (json * json) :=
  let? properties := py_get point_data "properties" in
  let properties := py_or properties (JDict []) in
  let? forecast_url := py_get properties "forecast" in
  let? stations_url := py_get properties "observationStations" in
  Ok (forecast_url, stations_url).

Definition _fetch_from_nws (L : PyLib) (E : Env) : M json :=
  let* cfg := _load_config L E in
  let '(latitude, longitude, contact) := cfg in
  let hs := request_headers contact in
  let* point_data := _make_request E (JStr (point_url L latitude longitude)) hs in
  let* urls := lift (point_urls point_data) in
  let '(forecast_url, stations_url) := urls in
  if negb (truthy forecast_url) then
    raise (ProxyError "Forecast URL unavailable for configured coordinates")
  else
    let* forecast_data := _make_request E forecast_url hs in
    let* forecast_data := lift (truncate_periods forecast_data) in
    let* observation := fetch_observation L E stations_url hs in
    let* forecast := lift (py_get_default forecast_data "properties" (JDict [])) in
    ret (JDict [("forecast", forecast);
                ("observation", observation_properties observation)]).

(** ** The cache: [_get_cached_weather] *)

Record cache := {
  _cache_payload : option json;
  _cache_timestamp : Q;
}.

Definition CACHE_TTL : Q := 300.

(** The module-level initial values. *)
Definition cold : cache := {| _cache_payload := None; _cache_timestamp := 0 |}.

Definition Qltb (x y : Q) : bool := negb (Qle_bool y x).

(** [_cache_payload is not None and now - _cache_timestamp < CACHE_TTL] *)
Definition cache_hit (c : cache) (now : Q) : option json :=
  match _cache_payload c with
  | Some payload =>
      if Qltb (now - _cache_timestamp c) CACHE_TTL then Some payload else None
  | None => None
  end.

(** Lines 124 to 127: what the holder of the lock does on a miss. *)
Definition refresh (L : PyLib) (E : Env) (now : Q) (c : cache) (w : world)
  : result json * cache * world :=
  match _fetch_from_nws L E w with
  | (Ok payload, w') =>
      (Ok payload, {| _cache_payload := Some payload; _cache_timestamp := now |}, w')
  | (Raise e, w') => (Raise e, c, w')
  end.

(** One uninterrupted call; [now] is the value [time.time()] returns. *)
Definition _get_cached_weather (L : PyLib) (E : Env) (now : Q) (c : cache) (w : world)
  : result json * cache * world :=
  match cache_hit c now with
  | Some payload => (Ok payload, c, w)
  | None => refresh L E now c w
  end.

(** ** The request handler: [WeatherProxyHandler.do_GET]

    The handler inherits [send_error], [send_response], [send_header] and
    [end_headers] from [http.server.BaseHTTPRequestHandler] and silences its
    log.  Requests carry the request line of HTTP/1.0 or HTTP/1.1, for which
    [http.server] writes a status line and headers. *)

(** What [do_GET] does with a request: it answers through [send_error]
    with a status line made of [code] and [message] and with the error page
    of [http.server]; it answers with a status, headers and a body of its
    own; or it raises and writes nothing. *)
Inductive response :=
| SendError (code : nat) (message : string)
| SendResponse (code : nat) (hs : headers) (body : string)
| Unhandled (e : exn).

Definition str_of_nat (n : nat) : string := NilZero.string_of_uint (Nat.to_uint n).

Definition crlf : string := String "013"%char (String "010"%char EmptyString).

(** The status line, which [send_response_only] encodes with ["latin-1"]. *)
Definition status_line (code : nat) (message : string) : string :=
  "HTTP/1.0 " +:+ str_of_nat code +:+ " " +:+ message +:+ crlf.

(** [self.send_error(code, message)].  The status line is encoded before
    anything is written; a message with a code point above 255 makes the
    encoding raise [UnicodeEncodeError], a [ValueError], which leaves
    [send_error]. *)
Definition send_error (L : PyLib) (code : nat) (message : string) : response :=
  if latin1 message then SendError code message
  else Unhandled (ValueError (encode_error L (status_line code message))).




(** [self.path.rstrip("/") in {"", "/weather"}] *)
Definition weather_route (path : string) : bool :=
  let p := rstrip_by (Ascii.eqb "/") path in
  String.eqb p "" || String.eqb p "/weather".

(** The classes of [except (urllib.error.URLError, TimeoutError, ValueError)]. *)
Definition upstream_caught (e : exn) : bool :=
  match e with
  | URLError _ | TimeoutError _ | ValueError _ => true
  | _ => false
  end.

(** The two [except] clauses of lines 142 to 147; an exception of another
    class leaves [do_GET]. *)
Definition render_error (L : PyLib) (e : exn) : response :=
  match e with
  | ProxyError m => send_error L 502 m
  | _ => if upstream_caught e
         then send_error L 502 ("Upstream request failed: " +:+ exn_str e)
         else Unhandled e
  end.

Definition render_payload (L : PyLib) (payload : json) : response :=
  let body := json_dumps L payload in
  SendResponse 200
    [("Content-Type", "application/json; charset=utf-8");
     ("Cache-Control", "no-store");
     ("Content-Length", str_of_nat (String.length body))]
    body.

Definition do_GET (L : PyLib) (E : Env) (path : string) (now : Q) (c : cache) (w : world)
  : response * cache * world :=
  if negb (weather_route path) then (send_error L 404 "Not Found", c, w)
  else
    match _get_cached_weather L E now c w with
    | (Ok payload, c', w') => (render_payload L payload, c', w')
    | (Raise e, c', w') => (render_error L e, c', w')
    end.

(** ** [main] *)

Inductive action :=
| Bind (host : string) (port : N)
| Print (line : string)
| ServeForever
| ServerClose.

(** What the process does from start to interrupt.  [host] and [port] are
    the parsed command-line options, [None] when the option is not given. *)
Definition main (host : option string) (port : option N) : list action :=
  let host := default "0.0.0.0" host in
  let port := default 8050%N port in
  [Bind host port;
   Print ("Weather proxy listening on http://" +:+ host +:+ ":"
          +:+ NilZero.string_of_uint (N.to_uint port) +:+ "/weather");
   Print "Press Ctrl+C to stop.";
   ServeForever;
   Print (String "010"%char "Stopping proxy...");
   ServerClose].

(** ** Concurrent callers of [_get_cached_weather]

    Each request runs in a thread of its own.  The body of
    [_get_cached_weather] is one [with CACHE_LOCK] block, so a caller is
    either waiting for the lock, inside the block, or done.  A caller that
    finds the cache fresh leaves the block at once; the other ones stay in
    it until their run of [_fetch_from_nws] is over. *)

Inductive thread :=
| Waiting
| Fetching (now : Q)
| Returned (r : result json).

Record system := {
  threads : list thread;
  CACHE_LOCK : bool;
  store : cache;
  net : world;
}.

(** The scheduler's choices. *)
Inductive choice :=
| Enter (t : nat) (now : Q)
| Leave (t : nat).

Definition set_thread (s : system) (t : nat) (th : thread) : list thread :=
  <[t := th]> (threads s).

Definition step (L : PyLib) (E : Env) (s : system) (c : choice) : option system :=
  match c with
  | Enter t now =>
      match threads s !! t, CACHE_LOCK s with
      | Some Waiting, false =>
          match cache_hit (store s) now with
          | Some payload =>
              Some {| threads := set_thread s t (Returned (Ok payload));
                      CACHE_LOCK := false; store := store s; net := net s |}
          | None =>
              Some {| threads := set_thread s t (Fetching now);
                      CACHE_LOCK := true; store := store s; net := net s |}
          end
      | _, _ => None
      end
  | Leave t =>
      match threads s !! t with
      | Some (Fetching now) =>
          let '(r, c', w') := refresh L E now (store s) (net s) in
          Some {| threads := set_thread s t (Returned r);
                  CACHE_LOCK := false; store := c'; net := w' |}
      | _ => None
      end
  end.

Fixpoint run (L : PyLib) (E : Env) (s : system) (sched : list choice) : option system :=
  match sched with
  | [] => Some s
  | c :: sched' =>
      match step L E s c with
      | Some s' => run L E s' sched'
      | None => None
      end
  end.

(** [n] callers arrive together. *)
Definition arrive (n : nat) (c : cache) (w : world) : system :=
  {| threads := replicate n Waiting; CACHE_LOCK := false; store := c; net := w |}.

Definition is_fetching (th : thread) : bool :=
  match th with Fetching _ => true | _ => false end.

Definition is_returned (th : thread) : bool :=
  match th with Returned _ => true | _ => false end.

Definition is_config (e : event) : bool :=
  match e with EvConfig _ => true | _ => false end.

(** Every run of the pipeline starts by reading [config.json], and nothing
    else reads it. *)
Definition pipeline_runs (w : world) : nat := length (List.filter is_config w).

(** The clock readings of a schedule. *)
Fixpoint readings (sched : list choice) : list Q :=
  match sched with
  | [] => []
  | Enter _ now :: sched' => now :: readings sched'
  | Leave _ :: sched' => readings sched'
  end.

(** All readings lie in one window of the length of the TTL. *)
Definition one_window (sched : list choice) : Prop :=
  exists t0 : Q, Forall (fun now => (t0 <= now)%Q /\ (now < t0 + CACHE_TTL)%Q) (readings sched).

(** The events a run of the pipeline added to the trace, oldest first. *)
Definition fetch_events (w w' : world) : list event :=
  rev (take (length w' - length w) w').

(** ** Auxiliary notions for the statements *)

(** [s] does not start with white space. *)
Definition head_ok (s : string) : Prop :=
  match s with
  | String a s1 =>
      is_space (String a EmptyString) = false /\
      match s1 with
      | String b s2 =>
          is_space (String a (String b EmptyString)) = false /\
          match s2 with
          | String c _ => is_space (String a (String b (String c EmptyString))) = false
          | EmptyString => True
          end
      | EmptyString => True
      end
  | EmptyString => True
  end.

(** A computation that reads the network only: whatever it adds to the trace
    is a request. *)
Definition only_requests {A : Type} (c : M A) : Prop :=
  forall w r w', c w = (r, w') ->
    exists evs, w' = evs ++ w /\ Forall (fun e => is_config e = false) evs.

(** ** Sample surroundings

    A library and a few upstream behaviours on which the statements below
    are exercised.  Coordinates are those of Denver. *)

Definition sample_lib : PyLib := {|
  float_of_str := fun _ => None;
  float_of_int := fun z => Some (inject_Z z);
  repr_str := fun s => "'" +:+ s +:+ "'";
  encode_error := fun _ => "'latin-1' codec can't encode characters";
  float_repr := fun q =>
    if Qeq_bool q (397392 # 10000) then "39.7392"
    else if Qeq_bool q (-1049903 # 10000) then "-104.9903"
    else "0.0";
  urljoin := fun base rel => Ok (base +:+ rel);
  json_dumps := fun _ => "{}";
|}.

Definition sample_config (contact : json) : config_file :=
  FileJson (JDict [("weather", JDict [("latitude", JNum (397392 # 10000));
                                      ("longitude", JNum (-1049903 # 10000));
                                      ("userAgent", contact)])]).

Definition sample_env (f : config_file) (serve : string -> result json) : Env := {|
  config_json := fun _ => f;
  urlopen := fun _ url _ =>
    match url with
    | JStr u => serve u
    | _ => Raise (ValueError "unknown url type")
    end;
|}.

Definition period (n : Z) : json := JDict [("number", JInt n)].

Definition fourteen_periods : list json :=
  map period [1; 2; 3; 4; 5; 6; 7; 8; 9; 10; 11; 12; 13; 14]%Z.

Definition sample_points : json :=
  JDict [("properties",
          JDict [("forecast", JStr "https://api.weather.gov/gridpoints/BOU/62,61/forecast");
                 ("observationStations",
                  JStr "https://api.weather.gov/gridpoints/BOU/62,61/stations")])].

Definition sample_forecast : json :=
  JDict [("properties", JDict [("units", JStr "us"); ("periods", JList fourteen_periods)])].

Definition sample_stations : json :=
  JDict [("features", JList [JDict [("id", JStr "https://api.weather.gov/stations/KBKF")];
                             JDict [("id", JStr "https://api.weather.gov/stations/KDEN")]])].

Definition sample_observation : json :=
  JDict [("properties", JDict [("textDescription", JStr "Clear")])].

(** The upstream server answers every call. *)
Definition serve_all (u : string) : result json :=
  if String.eqb u "https://api.weather.gov/points/39.7392,-104.9903" then Ok sample_points
  else if String.eqb u "https://api.weather.gov/gridpoints/BOU/62,61/forecast" then Ok sample_forecast
  else if String.eqb u "https://api.weather.gov/gridpoints/BOU/62,61/stations" then Ok sample_stations
  else if String.eqb u "https://api.weather.gov/stations/KBKF/observations/latest" then Ok sample_observation
  else Raise (URLError "HTTP Error 404: Not Found").

(** The station list cannot be fetched; everything else answers. *)
Definition serve_without_stations (u : string) : result json :=
  if String.eqb u "https://api.weather.gov/gridpoints/BOU/62,61/stations"
  then Raise (URLError "<urlopen error timed out>")
  else serve_all u.

(** The upstream server is unreachable. *)
Definition serve_nothing (u : string) : result json :=
  Raise (URLError "<urlopen error [Errno 111] Connection refused>").

(** The points call answers without a forecast URL. *)
Definition points_without_forecast : json :=
  JDict [("properties",
          JDict [("observationStations",
                  JStr "https://api.weather.gov/gridpoints/BOU/62,61/stations")])].

Definition serve_points_without_forecast (u : string) : result json :=
  if String.eqb u "https://api.weather.gov/points/39.7392,-104.9903"
  then Ok points_without_forecast
  else serve_all u.

Definition healthy : Env := sample_env (sample_config (JStr "ops@example.com")) serve_all.
Definition stations_down : Env :=
  sample_env (sample_config (JStr "ops@example.com")) serve_without_stations.
Definition unreachable : Env := sample_env (sample_config (JStr "ops@example.com")) serve_nothing.
Definition no_forecast_url : Env :=
  sample_env (sample_config (JStr "ops@example.com")) serve_points_without_forecast.
Definition config_missing : Env := sample_env FileMissing serve_all.
Definition coordinates_missing : Env :=
  sample_env (FileJson (JDict [("weather", JDict [("latitude", JNum (397392 # 10000))])])) serve_all.

Definition sample_headers : headers :=
  [("Accept", "application/geo+json");
   ("User-Agent", "LegacyDashboardProxy/1.0 (ops@example.com)");
   ("From", "ops@example.com")].

(** What a run against [healthy] serves. *)
Definition sample_payload : json :=
  JDict [("forecast", JDict [("units", JStr "us"); ("periods", JList (map period [1; 2; 3; 4; 5; 6]%Z))]);
         ("observation", JDict [("textDescription", JStr "Clear")])].

(** A cache filled ten seconds into the sample run. *)
Definition sample_warm : cache :=
  {| _cache_payload := Some sample_payload; _cache_timestamp := 10 |}.

(** [config.json] parses, its contact is usable, and a coordinate is
    missing. *)
Definition lacks_coordinates (data : json) : bool :=
  match data with
  | JDict d =>
      match default (JDict []) (dict_get d "weather") with
      | JDict wd =>
          (is_none (default JNull (dict_get wd "latitude"))
           || is_none (default JNull (dict_get wd "longitude")))
          && match py_or (default JNull (dict_get wd "userAgent")) (JStr "") with
             | JStr _ => true
             | _ => false
             end
      | _ => false
      end
  | _ => false
  end.

(** The two configuration errors of [_load_config]. *)
Definition config_error (f : config_file) : option string :=
  match f with
  | FileMissing => Some "config.json not found alongside weather_proxy.py"
  | FileJson data =>
      if lacks_coordinates data
      then Some "config.json must supply weather.latitude and weather.longitude"
      else None
  | FileUnreadable _ => None
  end.

(** The properties of a forecast response with the periods cut to six. *)
Definition cut_periods (properties : json) : json :=
  match properties with
  | JDict p =>
      match dict_get p "periods" with
      | Some (JList ((_ :: _) as ps)) => JDict (dict_set p "periods" (JList (take 6 ps)))
      | _ => properties
      end
  | _ => properties
  end.

(** The [forecast] field, from the forecast response [JDict fd]. *)
Definition served_forecast (fd : list (string * json)) : json :=
  match dict_get fd "properties" with
  | Some properties => cut_periods properties
  | None => JDict []
  end.

(** The [observation] field, from the event of the observation request when
    there is one. *)
Definition served_observation (ev : option event) : json :=
  match ev with
  | Some (EvRequest _ _ (Ok (JDict od))) => default JNull (dict_get od "properties")
  | _ => JNull
  end.

(** The [properties] of [sample_forecast]. *)
Definition sample_forecast_properties : list (string * json) :=
  [("units", JStr "us"); ("periods", JList fourteen_periods)].

(** ** Notions for the concurrent statements *)

(** No two callers are inside [_fetch_from_nws] together. *)
Definition at_most_one_fetching (s : system) : Prop :=
  forall i j now_i now_j,
    threads s !! i = Some (Fetching now_i) ->
    threads s !! j = Some (Fetching now_j) ->
    i = j.

(** A caller inside the pipeline holds the lock, and it is alone there. *)
Definition mutex (s : system) : Prop :=
  forall i now,
    threads s !! i = Some (Fetching now) ->
    CACHE_LOCK s = true /\
    forall j th, j <> i -> threads s !! j = Some th -> is_fetching th = false.

Definition in_window (t0 now : Q) : Prop := (t0 <= now)%Q /\ (now < t0 + CACHE_TTL)%Q.

(** No caller has been handed an error. *)
Definition no_error (s : system) : Prop :=
  forall i e, threads s !! i <> Some (Returned (Raise e)).

(** Where a run from a cold cache stands as long as no fetch has failed:
    either nothing is cached and nobody has returned, or the one fetch is
    over and its payload is what callers get. *)
Definition phase (t0 : Q) (runs0 : nat) (s : system) : Prop :=
  (_cache_payload (store s) = None /\
   pipeline_runs (net s) = runs0 /\
   (forall i th, threads s !! i = Some th -> is_returned th = false) /\
   (forall i now, threads s !! i = Some (Fetching now) -> in_window t0 now))
  \/
  (exists payload,
     _cache_payload (store s) = Some payload /\
     in_window t0 (_cache_timestamp (store s)) /\
     pipeline_runs (net s) = S runs0 /\
     forall i th, threads s !! i = Some th -> th = Waiting \/ th = Returned (Ok payload)).

(** C1 as the claim words it: whatever the upstream does, [n] callers that
    arrive on a cold cache within one window cause one run of the pipeline
    and are all handed the same payload. *)
Definition claimed_one_run : Prop :=
  forall L E n c w sched s,
    _cache_payload c = None ->
    one_window sched ->
    run L E (arrive n c w) sched = Some s ->
    (forall i th, threads s !! i = Some th -> is_returned th = true) ->
    pipeline_runs (net s) = S (pipeline_runs w) /\
    exists payload, forall i th, threads s !! i = Some th -> th = Returned (Ok payload).

(** Two callers, one after the other, a second apart. *)
Definition two_in_turn : list choice := [Enter 0 0; Leave 0; Enter 1 1; Leave 1].

(** Three callers: the second one gets the lock first. *)
Definition three_callers : list choice := [Enter 1 5; Leave 1; Enter 0 7; Enter 2 200].

(** ** Notions for the further properties *)

(** [n] slashes. *)
Fixpoint slashes (n : nat) : string :=
  match n with
  | O => EmptyString
  | S n' => String "/" (slashes n')
  end.

(** The upstream requests among some events. *)
Definition request_count (evs : list event) : nat :=
  length (List.filter (fun e => negb (is_config e)) evs).

(** The points call answers with a JSON array. *)
Definition serve_points_as_list (u : string) : result json :=
  if String.eqb u "https://api.weather.gov/points/39.7392,-104.9903"
  then Ok (JList [JStr "maintenance"])
  else serve_all u.

Definition malformed_points : Env :=
  sample_env (sample_config (JStr "ops@example.com")) serve_points_as_list.




(** The station answers nothing: the request for its latest observation
    times out. *)
Definition serve_without_observation (u : string) : result json :=
  if String.eqb u "https://api.weather.gov/stations/KBKF/observations/latest"
  then Raise (TimeoutError "timed out")
  else serve_all u.

Definition observation_down : Env :=
  sample_env (sample_config (JStr "ops@example.com")) serve_without_observation.

(** A request sent with the headers [hs]. *)
Definition request_with (hs : headers) (e : event) : Prop :=
  exists url r, e = EvRequest url hs r.

(** The sum of a measure over the callers. *)
Fixpoint total (f : thread -> nat) (ths : list thread) : nat :=
  match ths with
  | [] => O
  | th :: ths' => (f th + total f ths')%nat
  end.

(** The steps a caller can still take: entering, then leaving. *)
Definition steps_left (th : thread) : nat :=
  match th with
  | Waiting => 2
  | Fetching _ => 1
  | Returned _ => 0
  end.

Definition has_returned (th : thread) : nat :=
  if is_returned th then 1%nat else 0%nat.

(** The calls of a schedule, in the order in which the lock is taken. *)
Fixpoint calls (sched : list choice) : list (nat * Q) :=
  match sched with
  | [] => []
  | Enter t now :: sched' => (t, now) :: calls sched'
  | Leave _ :: sched' => calls sched'
  end.

(** The calls made one after the other, each an uninterrupted
    [_get_cached_weather]. *)
Fixpoint serial (L : PyLib) (E : Env) (cs : list (nat * Q))
    (ths : list thread) (c : cache) (w : world) : list thread * cache * world :=
  match cs with
  | [] => (ths, c, w)
  | (t, now) :: cs' =>
      let '(r, c', w') := _get_cached_weather L E now c w in
      serial L E cs' (<[t := Returned r]> ths) c' w'
  end.

(** When the lock is held, a caller is inside the pipeline. *)
Definition held_by_fetcher (s : system) : Prop :=
  CACHE_LOCK s = true -> exists i now, threads s !! i = Some (Fetching now).

(** A library whose [urljoin] rejects a base that opens a bracket and does
    not close it, as [urllib.parse] does. *)
Definition strict_lib : PyLib := {|
  float_of_str := float_of_str sample_lib;
  float_of_int := float_of_int sample_lib;
  repr_str := repr_str sample_lib;
  encode_error := encode_error sample_lib;
  float_repr := float_repr sample_lib;
  urljoin := fun base rel =>
    if contains "[" base && negb (contains "]" base)
    then Raise (ValueError "Invalid IPv6 URL")
    else Ok (base +:+ rel);
  json_dumps := json_dumps sample_lib;
|}.

(** The first station of the list has a malformed id. *)
Definition bad_stations : json :=
  JDict [("features", JList [JDict [("id", JStr "http://[bad")];
                             JDict [("id", JStr "https://api.weather.gov/stations/KDEN")]])].

Definition serve_bad_station (u : string) : result json :=
  if String.eqb u "https://api.weather.gov/gridpoints/BOU/62,61/stations"
  then Ok bad_stations
  else serve_all u.

Definition bad_station : Env :=
  sample_env (sample_config (JStr "ops@example.com")) serve_bad_station.

(** [config.json] has [null] under [weather]. *)
Definition weather_is_null : Env :=
  sample_env (FileJson (JDict [("weather", JNull)])) serve_all.

(** The forecast call answers with [null] under [properties]. *)
Definition serve_null_properties (u : string) : result json :=
  if String.eqb u "https://api.weather.gov/gridpoints/BOU/62,61/forecast"
  then Ok (JDict [("properties", JNull)])
  else serve_all u.

Definition null_properties : Env :=
  sample_env (sample_config (JStr "ops@example.com")) serve_null_properties.

(** * Properties *)

(** ** Strings and [_format_user_agent] *)

Lemma lstrip_head s : head_ok (lstrip s).
Proof.
  assert (H : forall n s, (String.length s <= n)%nat -> head_ok (lstrip s)).
  { induction n as [|n IH]; intros [|a s1] Hlen; try exact I; [cbn in Hlen; lia|].
    cbn [String.length] in Hlen. cbn [lstrip].
    destruct (is_space (String a EmptyString)) eqn:H1; [apply IH; lia|].
    destruct s1 as [|b s2]; [split; [exact H1 | exact I]|].
    cbn [String.length] in Hlen.
    destruct (is_space (String a (String b EmptyString))) eqn:H2; [apply IH; lia|].
    destruct s2 as [|c s3]; [split; [exact H1|]; split; [exact H2 | exact I]|].
    cbn [String.length] in Hlen.
    destruct (is_space (String a (String b (String c EmptyString)))) eqn:H3; [apply IH; lia|].
    split; [exact H1|]. split; [exact H2 | exact H3]. }
  exact (H (String.length s) s (le_n _)).
Qed.

Lemma lstrip_id s : head_ok s -> lstrip s = s.
Proof.
  destruct s as [|a [|b [|c s3]]]; cbn [head_ok lstrip].
  - reflexivity.
  - intros [-> _]. reflexivity.
  - intros [-> [-> _]]. reflexivity.
  - intros [-> [-> ->]]. reflexivity.
Qed.

Lemma rstrip_cons_inv s b r :
  rstrip s = String b r -> exists s', s = String b s' /\ r = rstrip s'.
Proof.
  destruct s as [|c s']; cbn [rstrip]; [discriminate|].
  destruct (is_space (String c (rstrip s'))); [discriminate|].
  intros [= -> <-]. eauto.
Qed.

Lemma rstrip_head s : head_ok s -> head_ok (rstrip s).
Proof.
  destruct (rstrip s) as [|a r1] eqn:Hs; [intros _; exact I|].
  apply rstrip_cons_inv in Hs as (s1 & -> & ->).
  destruct (rstrip s1) as [|b r2] eqn:Hs1; [intros [H1 _]; split; [exact H1 | exact I]|].
  apply rstrip_cons_inv in Hs1 as (s2 & -> & ->).
  destruct (rstrip s2) as [|c r3] eqn:Hs2;
    [intros [H1 [H2 _]]; split; [exact H1|]; split; [exact H2 | exact I]|].
  apply rstrip_cons_inv in Hs2 as (s3 & -> & ->).
  intros H. exact H.
Qed.

Lemma rstrip_idem s : rstrip (rstrip s) = rstrip s.
Proof.
  induction s as [|c s IH]; [reflexivity|]. cbn [rstrip].
  destruct (is_space (String c (rstrip s))) eqn:Hc; [reflexivity|].
  cbn [rstrip]. rewrite IH, Hc. reflexivity.
Qed.

Lemma strip_idem s : strip (strip s) = strip s.
Proof.
  unfold strip. rewrite (lstrip_id (rstrip (lstrip s))).
  - apply rstrip_idem.
  - apply rstrip_head, lstrip_head.
Qed.

Lemma is_empty_true s : is_empty s = true <-> s = EmptyString.
Proof. destruct s; simpl; split; congruence. Qed.

Lemma is_empty_false s : is_empty s = false <-> s <> EmptyString.
Proof. destruct s; simpl; split; congruence. Qed.

(** The contact [_load_config] hands to the pipeline is already stripped, so
    the [strip] of [_format_user_agent] leaves it as it is. *)
Lemma parse_config_contact_stripped L data lat lon contact :
  parse_config L data = Ok (lat, lon, contact) -> strip contact = contact.
Proof.
  unfold parse_config, rbind.
  destruct (py_get_default data "weather" (JDict [])) as [weather|]; [|discriminate].
  destruct (py_get weather "latitude") as [latitude|]; [|discriminate].
  destruct (py_get weather "longitude") as [longitude|]; [|discriminate].
  destruct (py_get weather "userAgent") as [userAgent|]; [|discriminate].
  destruct (py_strip (py_or userAgent (JStr ""))) as [c|] eqn:Hc; [|discriminate].
  destruct (is_none latitude || is_none longitude); [discriminate|].
  destruct (py_float L latitude); [|discriminate].
  destruct (py_float L longitude); [|discriminate].
  intros [= _ _ <-].
  unfold py_strip in Hc. destruct (py_or userAgent (JStr "")); try discriminate.
  injection Hc as <-. apply strip_idem.
Qed.

(** C9, as the claim words it, fails on a contact made of white space: the
    function strips its argument first, so a blank contact counts as empty. *)
Lemma format_user_agent_blank_contact :
  " " <> "" /\ contains "/" " " = false /\ contains "(" " " = false /\
  _format_user_agent (Some " ") <> "LegacyDashboardProxy/1.0 (" +:+ " " +:+ ")" /\
  _format_user_agent (Some " ") = "LegacyDashboardProxy/1.0 (contact unavailable)".
Proof. repeat split; try reflexivity; discriminate. Qed.

(** C9, amended: with [s] the contact stripped of surrounding white space,
    the User-Agent is the fallback when [s] is empty, [s] wrapped when [s] is
    not empty and holds neither a slash nor an opening parenthesis, and [s]
    itself otherwise.  A missing contact ([None]) counts as empty. *)
Theorem format_user_agent_cases (raw : option string) (s : string) :
  s = strip (default "" raw) ->
  (s = "" -> _format_user_agent raw = "LegacyDashboardProxy/1.0 (contact unavailable)") /\
  (s <> "" -> contains "/" s = false -> contains "(" s = false ->
   _format_user_agent raw = "LegacyDashboardProxy/1.0 (" +:+ s +:+ ")") /\
  (s <> "" -> contains "/" s = true \/ contains "(" s = true ->
   _format_user_agent raw = s).
Proof.
  intros ->. unfold _format_user_agent.
  set (s := strip (default "" raw)). repeat split.
  - intros Hs. apply is_empty_true in Hs. rewrite Hs. reflexivity.
  - intros Hs H1 H2. apply is_empty_false in Hs. rewrite Hs, H1, H2. reflexivity.
  - intros Hs H. apply is_empty_false in Hs. rewrite Hs.
    destruct H as [-> | ->]; [reflexivity|].
    destruct (contains "/" s); reflexivity.
Qed.

Lemma format_user_agent_cases_witness :
  _format_user_agent (Some "") = "LegacyDashboardProxy/1.0 (contact unavailable)" /\
  _format_user_agent (Some " ops@example.com ") = "LegacyDashboardProxy/1.0 (ops@example.com)" /\
  _format_user_agent (Some "Dashboard/2.0 (ops@example.com)") = "Dashboard/2.0 (ops@example.com)".
Proof.
  split; [|split].
  - apply (format_user_agent_cases (Some "") "" eq_refl). reflexivity.
  - apply (format_user_agent_cases (Some " ops@example.com ") "ops@example.com" eq_refl);
      [discriminate | reflexivity | reflexivity].
  - apply (format_user_agent_cases (Some "Dashboard/2.0 (ops@example.com)")
             "Dashboard/2.0 (ops@example.com)" eq_refl);
      [discriminate | left; reflexivity].
Defined.

(** ** The clock *)

Lemma Qltb_true x y : Qltb x y = true <-> (x < y)%Q.
Proof.
  unfold Qltb. rewrite negb_true_iff. split.
  - intros H. apply Qnot_le_lt. intros Hle. apply Qle_bool_iff in Hle. congruence.
  - intros H. destruct (Qle_bool y x) eqn:Hb; [|reflexivity].
    apply Qle_bool_iff in Hb. exfalso. exact (Qlt_not_le _ _ H Hb).
Qed.

Lemma Qltb_false x y : Qltb x y = false <-> (y <= x)%Q.
Proof.
  unfold Qltb. rewrite negb_false_iff. apply Qle_bool_iff.
Qed.

Lemma cache_hit_Some c now payload :
  cache_hit c now = Some payload <->
  _cache_payload c = Some payload /\ (now - _cache_timestamp c < CACHE_TTL)%Q.
Proof.
  unfold cache_hit. destruct (_cache_payload c) as [p|].
  - destruct (Qltb (now - _cache_timestamp c) CACHE_TTL) eqn:Hlt.
    + apply Qltb_true in Hlt. split; [intros [= <-]; auto | intros [[= <-] _]; auto].
    + apply Qltb_false in Hlt. split; [discriminate|].
      intros [_ H]. exfalso. exact (Qlt_not_le _ _ H Hlt).
  - split; [discriminate | intros [[=] _]].
Qed.

Lemma cache_hit_None c now :
  cache_hit c now = None <->
  _cache_payload c = None \/ (CACHE_TTL <= now - _cache_timestamp c)%Q.
Proof.
  unfold cache_hit. destruct (_cache_payload c) as [p|].
  - destruct (Qltb (now - _cache_timestamp c) CACHE_TTL) eqn:Hlt.
    + apply Qltb_true in Hlt. split; [discriminate|].
      intros [[=] | H]. exfalso. exact (Qlt_not_le _ _ Hlt H).
    + apply Qltb_false in Hlt. split; auto.
  - split; auto.
Qed.

(** A stale or empty cache stays so as the clock moves on. *)
Lemma cache_hit_None_later c now now' :
  cache_hit c now = None -> (now <= now')%Q -> cache_hit c now' = None.
Proof.
  rewrite !cache_hit_None. intros [H | H] Hle; [left; exact H | right].
  unfold CACHE_TTL in *. lra.
Qed.

(** ** The trace of a pipeline run *)

Lemma only_requests_ret {A} (a : A) : only_requests (ret a).
Proof. intros w r w' [= <- <-]. exists []. split; [reflexivity | constructor]. Qed.

Lemma only_requests_raise {A} e : only_requests (@raise A e).
Proof. intros w r w' [= <- <-]. exists []. split; [reflexivity | constructor]. Qed.

Lemma only_requests_lift {A} (x : result A) : only_requests (lift x).
Proof. intros w r w' [= <- <-]. exists []. split; [reflexivity | constructor]. Qed.

Lemma only_requests_make_request E url hs : only_requests (_make_request E url hs).
Proof.
  intros w r w' [= <- <-]. eexists [_]. split; [reflexivity|].
  constructor; [reflexivity | constructor].
Qed.

Lemma only_requests_bind {A B} (c : M A) (k : A -> M B) :
  only_requests c -> (forall a, only_requests (k a)) -> only_requests (bind c k).
Proof.
  intros Hc Hk w r w'. unfold bind.
  destruct (c w) as [[a|e] w1] eqn:Hcw; destruct (Hc _ _ _ Hcw) as (evs1 & -> & H1).
  - intros Hka. destruct (Hk _ _ _ _ Hka) as (evs2 & -> & H2).
    exists (evs2 ++ evs1). split; [apply app_assoc | apply Forall_app; auto].
  - intros [= <- <-]. exists evs1. auto.
Qed.

Lemma only_requests_try_except {A} (c : M A) caught (h : M A) :
  only_requests c -> only_requests h -> only_requests (try_except c caught h).
Proof.
  intros Hc Hh w r w'. unfold try_except.
  destruct (c w) as [[a|e] w1] eqn:Hcw; destruct (Hc _ _ _ Hcw) as (evs1 & -> & H1).
  - intros [= <- <-]. exists evs1. auto.
  - destruct (caught e).
    + intros Hhw. destruct (Hh _ _ _ Hhw) as (evs2 & -> & H2).
      exists (evs2 ++ evs1). split; [apply app_assoc | apply Forall_app; auto].
    + intros [= <- <-]. exists evs1. auto.
Qed.

Ltac only_requests_tac :=
  repeat first
    [ apply only_requests_ret
    | apply only_requests_raise
    | apply only_requests_lift
    | apply only_requests_make_request
    | apply only_requests_try_except
    | match goal with
      | |- only_requests (fetch_observation _ _ _ _) =>
          unfold fetch_observation
      end
    | apply only_requests_bind; [|intros ?]
    | match goal with
      | |- only_requests (if ?b then _ else _) => destruct b
      | |- only_requests (match ?x with (_, _) => _ end) => destruct x
      end ].

Lemma only_requests_fetch_observation L E stations_url hs :
  only_requests (fetch_observation L E stations_url hs).
Proof. unfold fetch_observation. only_requests_tac. Qed.

(** A run of the pipeline reads [config.json] first and once; all it does
    afterwards is send requests. *)
Lemma fetch_from_nws_trace L E w r w' :
  _fetch_from_nws L E w = (r, w') ->
  exists evs, w' = evs ++ EvConfig (config_json E (length w)) :: w /\
              Forall (fun e => is_config e = false) evs.
Proof.
  unfold _fetch_from_nws. unfold bind at 1. unfold _load_config at 1. cbv zeta.
  destruct (read_config L (config_json E (length w))) as [[[lat lon] contact]|e].
  2: { intros [= <- <-]. exists []. split; [reflexivity | constructor]. }
  revert r w'. generalize (EvConfig (config_json E (length w)) :: w).
  match goal with |- forall w1 r w', ?c w1 = _ -> _ => change (only_requests c) end.
  only_requests_tac.
Qed.

Lemma pipeline_runs_app evs w :
  Forall (fun e => is_config e = false) evs -> pipeline_runs (evs ++ w) = pipeline_runs w.
Proof.
  unfold pipeline_runs. induction 1 as [|e evs He _ IH]; [reflexivity|].
  simpl. rewrite He. exact IH.
Qed.

Lemma fetch_from_nws_runs L E w r w' :
  _fetch_from_nws L E w = (r, w') -> pipeline_runs w' = S (pipeline_runs w).
Proof.
  intros H. destruct (fetch_from_nws_trace _ _ _ _ _ H) as (evs & -> & Hevs).
  rewrite pipeline_runs_app by exact Hevs. reflexivity.
Qed.

Example fetch_healthy :
  fst (_fetch_from_nws sample_lib healthy []) = Ok sample_payload.
Proof. vm_compute. reflexivity. Qed.

Example fetch_healthy_requests :
  map (fun e => match e with EvRequest (JStr u) _ _ => u | _ => "config.json" end)
      (fetch_events [] (snd (_fetch_from_nws sample_lib healthy [])))
  = ["config.json";
     "https://api.weather.gov/points/39.7392,-104.9903";
     "https://api.weather.gov/gridpoints/BOU/62,61/forecast";
     "https://api.weather.gov/gridpoints/BOU/62,61/stations";
     "https://api.weather.gov/stations/KBKF/observations/latest"].
Proof. vm_compute. reflexivity. Qed.

(** ** The cache *)

Lemma get_cached_weather_miss L E now c w :
  cache_hit c now = None -> _get_cached_weather L E now c w = refresh L E now c w.
Proof. unfold _get_cached_weather. intros ->. reflexivity. Qed.

Lemma refresh_runs L E now c w :
  pipeline_runs (snd (refresh L E now c w)) = S (pipeline_runs w).
Proof.
  unfold refresh. destruct (_fetch_from_nws L E w) as [[p|e] w'] eqn:H;
    apply fetch_from_nws_runs in H; exact H.
Qed.

(** What a call does when it has to fetch: it runs the pipeline once, on
    the trace it was given, and its outcome is the outcome of that run. *)
Lemma get_cached_weather_on_miss L E now c w :
  cache_hit c now = None ->
  exists r w',
    _fetch_from_nws L E w = (r, w') /\
    pipeline_runs w' = S (pipeline_runs w) /\
    _get_cached_weather L E now c w
    = match r with
      | Ok payload =>
          (Ok payload, {| _cache_payload := Some payload; _cache_timestamp := now |}, w')
      | Raise e => (Raise e, c, w')
      end.
Proof.
  intros Hmiss. destruct (_fetch_from_nws L E w) as [r w'] eqn:Hf. exists r, w'.
  split; [reflexivity|]. split; [exact (fetch_from_nws_runs _ _ _ _ _ Hf)|].
  rewrite get_cached_weather_miss by exact Hmiss. unfold refresh. rewrite Hf.
  destruct r; reflexivity.
Qed.

(** C4: the TTL is 300 seconds.  A call that finds an entry younger than
    the TTL returns its payload and leaves the cache and the trace as they
    are: nothing is read or requested.  A call that finds no entry, or one
    as old as the TTL or older, runs the fetch pipeline, once and on the
    trace as the call found it, and the trace the pipeline leaves is the
    trace the call leaves.  When the pipeline succeeds, its payload is
    stored together with the clock reading of this call, and returned; when
    it fails, the call fails with the same error and the cache is left as
    it was. *)
Theorem get_cached_weather_hit_or_miss L E now c w :
  CACHE_TTL = 300%Q /\
  (forall payload,
     _cache_payload c = Some payload -> (now - _cache_timestamp c < CACHE_TTL)%Q ->
     _get_cached_weather L E now c w = (Ok payload, c, w)) /\
  (_cache_payload c = None \/ (CACHE_TTL <= now - _cache_timestamp c)%Q ->
   exists r w',
     _fetch_from_nws L E w = (r, w') /\
     pipeline_runs w' = S (pipeline_runs w) /\
     snd (_get_cached_weather L E now c w) = w' /\
     (forall payload, r = Ok payload ->
        _get_cached_weather L E now c w
        = (Ok payload, {| _cache_payload := Some payload; _cache_timestamp := now |}, w')) /\
     (forall e, r = Raise e ->
        _get_cached_weather L E now c w = (Raise e, c, w'))).
Proof.
  split; [reflexivity|]. split.
  - intros payload Hp Hlt. unfold _get_cached_weather.
    rewrite (proj2 (cache_hit_Some c now payload)); auto.
  - intros Hmiss. apply cache_hit_None in Hmiss.
    destruct (get_cached_weather_on_miss L E now c w Hmiss) as (r & w' & Hf & Hruns & Hget).
    exists r, w'. split; [exact Hf|]. split; [exact Hruns|]. rewrite Hget.
    split; [destruct r; reflexivity|].
    split; [intros payload -> | intros e ->]; reflexivity.
Qed.

Lemma get_cached_weather_hit_or_miss_witness :
  _get_cached_weather sample_lib unreachable 309 sample_warm [] = (Ok sample_payload, sample_warm, [])
  /\ (exists w',
        _get_cached_weather sample_lib healthy 310 sample_warm []
        = (Ok sample_payload,
           {| _cache_payload := Some sample_payload; _cache_timestamp := 310 |}, w') /\
        pipeline_runs w' = 1%nat)
  /\ (exists w',
        _get_cached_weather sample_lib unreachable 310 sample_warm []
        = (Raise (URLError "<urlopen error [Errno 111] Connection refused>"), sample_warm, w') /\
        pipeline_runs w' = 1%nat).
Proof.
  split; [|split].
  - apply (get_cached_weather_hit_or_miss sample_lib unreachable 309 sample_warm []).
    + reflexivity.
    + vm_compute. reflexivity.
  - destruct (get_cached_weather_hit_or_miss sample_lib healthy 310 sample_warm [])
      as (_ & _ & Hmiss).
    destruct Hmiss as (r & w' & Hf & Hruns & _ & Hok & _); [right; vm_compute; discriminate|].
    exists w'. split; [|exact Hruns]. apply Hok.
    apply (f_equal fst) in Hf. cbn [fst] in Hf. rewrite <- Hf. vm_compute. reflexivity.
  - destruct (get_cached_weather_hit_or_miss sample_lib unreachable 310 sample_warm [])
      as (_ & _ & Hmiss).
    destruct Hmiss as (r & w' & Hf & Hruns & _ & _ & Hraise); [right; vm_compute; discriminate|].
    exists w'. split; [|exact Hruns]. apply Hraise.
    apply (f_equal fst) in Hf. cbn [fst] in Hf. rewrite <- Hf. vm_compute. reflexivity.
Defined.


(** C5: take a call that has to fetch (no entry, or one as old as the TTL
    or older) and whose run of the pipeline fails with [e].  The call fails
    with that same [e], and the cache entry, payload and time stamp, is what
    it was before the call.  The entry stays usable: a payload it holds is
    returned, without a fetch, to any later call whose clock reading is less
    than the TTL after its time stamp.  Nothing about the failure is
    remembered: a following call, at a clock reading that is not earlier,
    runs the whole pipeline again, and its outcome is the outcome of that
    new run.  Conversely, a call fails only in this way. *)
Theorem get_cached_weather_failure L E now c w e w' :
  cache_hit c now = None ->
  _fetch_from_nws L E w = (Raise e, w') ->
  _get_cached_weather L E now c w = (Raise e, c, w') /\
  (forall payload now2 w2,
     _cache_payload c = Some payload -> (now2 - _cache_timestamp c < CACHE_TTL)%Q ->
     _get_cached_weather L E now2 c w2 = (Ok payload, c, w2)) /\
  (forall now', (now <= now')%Q ->
     exists r w'',
       _fetch_from_nws L E w' = (r, w'') /\
       pipeline_runs w'' = S (pipeline_runs w') /\
       _get_cached_weather L E now' c w'
       = match r with
         | Ok payload =>
             (Ok payload, {| _cache_payload := Some payload; _cache_timestamp := now' |}, w'')
         | Raise e' => (Raise e', c, w'')
         end) /\
  (forall e0 c0 w0,
     _get_cached_weather L E now c w = (Raise e0, c0, w0) ->
     e0 = e /\ c0 = c /\ w0 = w').
Proof.
  intros Hmiss Hf.
  assert (Hget : _get_cached_weather L E now c w = (Raise e, c, w')).
  { rewrite get_cached_weather_miss by exact Hmiss. unfold refresh. rewrite Hf. reflexivity. }
  split; [exact Hget|]. split; [|split].
  - intros payload now2 w2 Hp Hlt. unfold _get_cached_weather.
    rewrite (proj2 (cache_hit_Some c now2 payload)); auto.
  - intros now' Hle. apply get_cached_weather_on_miss.
    eapply cache_hit_None_later; eauto.
  - intros e0 c0 w0 H0. rewrite Hget in H0. injection H0 as <- <- <-. auto.
Qed.

Lemma get_cached_weather_failure_witness :
  exists w',
    _get_cached_weather sample_lib unreachable 310 sample_warm []
    = (Raise (URLError "<urlopen error [Errno 111] Connection refused>"), sample_warm, w') /\
    _get_cached_weather sample_lib unreachable 305 sample_warm w'
    = (Ok sample_payload, sample_warm, w') /\
    pipeline_runs (snd (_get_cached_weather sample_lib unreachable 311 sample_warm w')) = 2%nat.
Proof.
  destruct (_fetch_from_nws sample_lib unreachable []) as [r w'] eqn:Hf.
  assert (Hr : r = Raise (URLError "<urlopen error [Errno 111] Connection refused>"))
    by (apply (f_equal fst) in Hf; cbn [fst] in Hf; rewrite <- Hf; vm_compute; reflexivity).
  subst r.
  destruct (get_cached_weather_failure sample_lib unreachable 310 sample_warm []
              (URLError "<urlopen error [Errno 111] Connection refused>") w')
    as (Hget & Hkept & Hnext & _); [reflexivity | exact Hf |].
  exists w'. split; [exact Hget|]. split.
  - apply Hkept; [reflexivity | vm_compute; reflexivity].
  - destruct (Hnext 311%Q) as (r2 & w2 & _ & Hruns & Hget2); [vm_compute; discriminate|].
    rewrite Hget2. apply (fetch_from_nws_runs _ _ _ _ _) in Hf.
    destruct r2; cbn [snd]; rewrite Hruns, Hf; reflexivity.
Defined.

(** ** The request handler *)

Example weather_route_paths :
  map weather_route ["/weather"; "/weather/"; "/"; ""; "/weather//"; "/forecast"; "/weather/now"]
  = [true; true; true; true; true; false; false].
Proof. reflexivity. Qed.

Example do_GET_other_path :
  do_GET sample_lib healthy "/forecast" 0 cold [] = (SendError 404 "Not Found", cold, []).
Proof. reflexivity. Qed.

Example do_GET_healthy :
  fst (fst (do_GET sample_lib healthy "/weather" 0 cold []))
  = SendResponse 200
      [("Content-Type", "application/json; charset=utf-8");
       ("Cache-Control", "no-store");
       ("Content-Length", "2")]
      "{}".
Proof. vm_compute. reflexivity. Qed.


Lemma render_error_proxy L msg :
  render_error L (ProxyError msg)
  = if latin1 msg then SendError 502 msg
    else Unhandled (ValueError (encode_error L (status_line 502 msg))).
Proof. reflexivity. Qed.





(** ** The fetch pipeline, stage by stage *)

Lemma fetch_from_nws_stages L E w :
  _fetch_from_nws L E w =
  let f := config_json E (length w) in
  let w1 := EvConfig f :: w in
  match read_config L f with
  | Raise e => (Raise e, w1)
  | Ok (latitude, longitude, contact) =>
      let hs := request_headers contact in
      let url := JStr (point_url L latitude longitude) in
      let r1 := urlopen E (length w1) url (sent_headers hs) in
      let w2 := EvRequest url (sent_headers hs) r1 :: w1 in
      match r1 with
      | Raise e => (Raise e, w2)
      | Ok point_data =>
          match point_urls point_data with
          | Raise e => (Raise e, w2)
          | Ok (forecast_url, stations_url) =>
              if truthy forecast_url then
                let r2 := urlopen E (length w2) forecast_url (sent_headers hs) in
                let w3 := EvRequest forecast_url (sent_headers hs) r2 :: w2 in
                match r2 with
                | Raise e => (Raise e, w3)
                | Ok forecast_data =>
                    match truncate_periods forecast_data with
                    | Raise e => (Raise e, w3)
                    | Ok forecast_data' =>
                        match fetch_observation L E stations_url hs w3 with
                        | (Raise e, w4) => (Raise e, w4)
                        | (Ok observation, w4) =>
                            match py_get_default forecast_data' "properties" (JDict []) with
                            | Raise e => (Raise e, w4)
                            | Ok forecast =>
                                (Ok (JDict [("forecast", forecast);
                                            ("observation", observation_properties observation)]),
                                 w4)
                            end
                        end
                    end
                end
              else (Raise (ProxyError "Forecast URL unavailable for configured coordinates"), w2)
          end
      end
  end.
Proof.
  unfold _fetch_from_nws, bind, _load_config, _make_request, lift, raise, ret. cbv zeta.
  destruct (read_config L (config_json E (length w))) as [[[lat lon] contact]|e]; [|reflexivity].
  destruct (urlopen E _ (JStr (point_url L lat lon)) _) as [point_data|e]; [|reflexivity].
  destruct (point_urls point_data) as [[forecast_url stations_url]|e]; [|reflexivity].
  destruct (truthy forecast_url); [|reflexivity]. cbn [negb].
  destruct (urlopen E _ forecast_url _) as [forecast_data|e]; [|reflexivity].
  destruct (truncate_periods forecast_data) as [forecast_data'|e]; [|reflexivity].
  destruct (fetch_observation L E stations_url _ _) as [[observation|e] w4]; [|reflexivity].
  destruct (py_get_default forecast_data' "properties" (JDict [])); reflexivity.
Qed.

(** The stages of the observation part (lines 98 to 109). *)
Lemma fetch_observation_stages L E stations_url hs w :
  fetch_observation L E stations_url hs w =
  if truthy stations_url then
    let r3 := urlopen E (length w) stations_url (sent_headers hs) in
    let w4 := EvRequest stations_url (sent_headers hs) r3 :: w in
    match r3 with
    | Raise e => (Raise e, w4)
    | Ok stations_data =>
        match py_get stations_data "features" with
        | Raise e => (Raise e, w4)
        | Ok features =>
            if truthy (py_or features (JList [])) then
              match py_index0 (py_or features (JList [])) with
              | Raise e => (Raise e, w4)
              | Ok station =>
                  match py_get station "id" with
                  | Raise e => (Raise e, w4)
                  | Ok latest_url =>
                      if truthy latest_url then
                        match py_add_str latest_url "/" with
                        | Raise e => (Raise e, w4)
                        | Ok base =>
                            match urljoin L base "observations/latest" with
                            | Raise e => (Raise e, w4)
                            | Ok joined =>
                                let url := JStr joined in
                                let r4 := urlopen E (length w4) url (sent_headers hs) in
                                let w5 := EvRequest url (sent_headers hs) r4 :: w4 in
                                match r4 with
                                | Ok observation => (Ok observation, w5)
                                | Raise e =>
                                    if observation_caught e then (Ok JNull, w5) else (Raise e, w5)
                                end
                            end
                        end
                      else (Ok JNull, w4)
                  end
              end
            else (Ok JNull, w4)
        end
    end
  else (Ok JNull, w).
Proof.
  unfold fetch_observation, bind, try_except, _make_request, lift, ret. cbv zeta.
  destruct (truthy stations_url); [|reflexivity].
  destruct (urlopen E _ stations_url _) as [stations_data|e]; [|reflexivity].
  destruct (py_get stations_data "features") as [features|e]; [|reflexivity].
  destruct (truthy (py_or features (JList []))); [|reflexivity].
  destruct (py_index0 _) as [station|e]; [|reflexivity].
  destruct (py_get station "id") as [latest_url|e]; [|reflexivity].
  destruct (truthy latest_url); [|reflexivity].
  destruct (py_add_str latest_url "/") as [base|e]; [|reflexivity].
  destruct (urljoin L base "observations/latest") as [joined|e]; [|reflexivity].
  destruct (urlopen E _ (JStr _) _) as [observation|e]; [reflexivity|].
  destruct (observation_caught e); reflexivity.
Qed.

(** ** A points response without a forecast URL *)

(** C8, as the claim words it, fails on the message: the error raised is the
    proxy's [ProxyError] and its text is longer than the one claimed. *)
Lemma missing_forecast_url_message :
  fst (_fetch_from_nws sample_lib no_forecast_url [])
  = Raise (ProxyError "Forecast URL unavailable for configured coordinates")
  /\ "Forecast URL unavailable for configured coordinates" <> "forecast URL unavailable".
Proof. split; [vm_compute; reflexivity | discriminate]. Qed.

(** C8, amended: when the configuration loads, the points call answers and
    its answer has no forecast URL ([properties.forecast] absent, null or
    empty), the fetch fails with the proxy's error whose message is
    "Forecast URL unavailable for configured coordinates"; the points call is
    the only request of that run, so nothing is tried again. *)
Theorem forecast_url_unavailable L E w latitude longitude contact
    point_data forecast_url stations_url :
  let f := config_json E (length w) in
  let url := JStr (point_url L latitude longitude) in
  let hs := sent_headers (request_headers contact) in
  read_config L f = Ok (latitude, longitude, contact) ->
  urlopen E (S (length w)) url hs = Ok point_data ->
  point_urls point_data = Ok (forecast_url, stations_url) ->
  truthy forecast_url = false ->
  _fetch_from_nws L E w
  = (Raise (ProxyError "Forecast URL unavailable for configured coordinates"),
     [EvRequest url hs (Ok point_data); EvConfig f] ++ w).
Proof.
  intros f url hs Hcfg Hpoint Hurls Hfalsy. subst f url hs.
  rewrite fetch_from_nws_stages. cbv zeta. rewrite Hcfg. cbn [length].
  rewrite Hpoint, Hurls, Hfalsy. reflexivity.
Qed.

Lemma forecast_url_unavailable_witness :
  exists w',
    _fetch_from_nws sample_lib no_forecast_url []
    = (Raise (ProxyError "Forecast URL unavailable for configured coordinates"), w')
    /\ length w' = 2%nat.
Proof.
  eexists. split.
  - apply (forecast_url_unavailable sample_lib no_forecast_url []
             (397392 # 10000) (-1049903 # 10000) "ops@example.com"
             points_without_forecast JNull
             (JStr "https://api.weather.gov/gridpoints/BOU/62,61/stations")).
    + reflexivity.
    + reflexivity.
    + reflexivity.
    + reflexivity.
  - reflexivity.
Defined.

(** ** Configuration errors *)

Lemma read_config_error L f msg :
  config_error f = Some msg -> read_config L f = Raise (ProxyError msg).
Proof.
  destruct f as [|e|data]; simpl; [intros [= <-]; reflexivity | discriminate |].
  destruct (lacks_coordinates data) eqn:Hlack; [|discriminate]. intros [= <-].
  unfold lacks_coordinates in Hlack. destruct data as [| | | | | |d]; try discriminate.
  unfold parse_config, py_get_default at 1, rbind.
  destruct (default (JDict []) (dict_get d "weather")) as [| | | | | |wd]; try discriminate.
  unfold py_get, py_get_default.
  apply andb_true_iff in Hlack as [Hnone Hua].
  destruct (py_or (default JNull (dict_get wd "userAgent")) (JStr "")); try discriminate.
  unfold py_strip. rewrite Hnone. reflexivity.
Qed.

(** The texts of the two configuration errors can be sent as they are. *)
Lemma config_error_latin1 f msg : config_error f = Some msg -> latin1 msg = true.
Proof.
  destruct f as [|e|data]; cbn [config_error]; [intros [= <-]; reflexivity | discriminate|].
  destruct (lacks_coordinates data); [intros [= <-]; reflexivity | discriminate].
Qed.

(** C3, as the claim words it, fails: [main] starts serving whatever the
    state of [config.json], and the error comes back to each request. *)
Lemma config_error_reaches_requests :
  In ServeForever (main None None) /\
  do_GET sample_lib config_missing "/weather" 0 cold []
  = (SendError 502 "config.json not found alongside weather_proxy.py", cold,
     [EvConfig FileMissing]) /\
  fst (fst (do_GET sample_lib coordinates_missing "/weather" 0 cold []))
  = SendError 502 "config.json must supply weather.latitude and weather.longitude".
Proof. split; [simpl; tauto|]. split; vm_compute; reflexivity. Qed.

(** C3, amended: [main] serves without reading [config.json].  A missing
    file, or a file without latitude or longitude, is an error of the fetch:
    each request on the weather route that misses the cache is answered 502
    with the message of that error, and the cache is left as it was. *)
Theorem config_error_is_per_request L E host port path now c w msg :
  weather_route path = true ->
  cache_hit c now = None ->
  config_error (config_json E (length w)) = Some msg ->
  In ServeForever (main host port) /\
  do_GET L E path now c w
  = (SendError 502 msg, c, EvConfig (config_json E (length w)) :: w).
Proof.
  intros Hroute Hmiss Herr. split; [simpl; tauto|].
  unfold do_GET. rewrite Hroute. cbn [negb].
  rewrite get_cached_weather_miss by exact Hmiss. unfold refresh.
  rewrite fetch_from_nws_stages. cbv zeta.
  rewrite (read_config_error L _ _ Herr), render_error_proxy.
  rewrite (config_error_latin1 _ _ Herr). reflexivity.
Qed.

Lemma config_error_is_per_request_witness :
  In ServeForever (main (Some "127.0.0.1") (Some 8080%N)) /\
  do_GET sample_lib coordinates_missing "/" 400 sample_warm []
  = (SendError 502 "config.json must supply weather.latitude and weather.longitude",
     sample_warm,
     [EvConfig (config_json coordinates_missing 0)]).
Proof.
  apply (config_error_is_per_request sample_lib coordinates_missing
           (Some "127.0.0.1") (Some 8080%N) "/" 400 sample_warm []).
  - reflexivity.
  - vm_compute. reflexivity.
  - reflexivity.
Defined.

(** ** The payload of a successful run *)

Lemma dict_get_set_eq d k v : dict_get (dict_set d k v) k = Some v.
Proof.
  induction d as [|[k' v'] d IH]; simpl.
  - rewrite String.eqb_refl. reflexivity.
  - destruct (String.eqb k k') eqn:Hk; simpl.
    + rewrite String.eqb_refl. reflexivity.
    + rewrite Hk. exact IH.
Qed.

Lemma dict_get_set_ne d k k' v : k' <> k -> dict_get (dict_set d k v) k' = dict_get d k'.
Proof.
  intros Hne. induction d as [|[k0 v0] d IH]; simpl.
  - apply String.eqb_neq in Hne. rewrite Hne. reflexivity.
  - destruct (String.eqb k k0) eqn:Hk; simpl.
    + apply String.eqb_eq in Hk. subst k0.
      apply String.eqb_neq in Hne. rewrite Hne. reflexivity.
    + destruct (String.eqb k' k0); [reflexivity | exact IH].
Qed.

Lemma fetch_events_app evs w : fetch_events w (evs ++ w) = rev evs.
Proof.
  unfold fetch_events. rewrite length_app.
  replace (length evs + length w - length w)%nat with (length evs) by lia.
  rewrite take_app_length. reflexivity.
Qed.

(** What lines 90 to 96 and line 112 make of the forecast response. *)
Lemma truncate_periods_served forecast_data forecast_data' forecast :
  truncate_periods forecast_data = Ok forecast_data' ->
  py_get_default forecast_data' "properties" (JDict []) = Ok forecast ->
  exists fd, forecast_data = JDict fd /\ forecast = served_forecast fd.
Proof.
  unfold truncate_periods, py_get, py_get_default at 1, rbind.
  destruct forecast_data as [| | | | | |fd]; try discriminate.
  intros H1 H2. exists fd. split; [reflexivity|]. revert H1 H2.
  unfold served_forecast.
  destruct (dict_get fd "properties") as [properties|] eqn:Hprops;
    cbn [default from_option id].
  2: { cbn. intros [= <-]. cbn. rewrite Hprops. intros [= <-]. reflexivity. }
  unfold py_or. destruct (truthy properties) eqn:Htruthy.
  - destruct properties as [| | | | | |p]; try (cbn; discriminate).
    cbn [py_get_default cut_periods].
    destruct (dict_get p "periods") as [[| | | | |[|x ps]|]|] eqn:Hperiods; cbn;
      try (intros [= <-]; cbn; rewrite Hprops; intros [= <-]; reflexivity).
    intros [= <-]. cbn. rewrite dict_get_set_eq. intros [= <-]. reflexivity.
  - cbn. intros [= <-]. cbn. rewrite Hprops. intros [= <-].
    destruct properties as [| | | | | |[|kv p]]; try reflexivity. discriminate.
Qed.

(** What lines 98 to 109 and line 113 make of the observation request. *)
Lemma fetch_observation_served L E stations_url hs w observation w' :
  fetch_observation L E stations_url hs w = (Ok observation, w') ->
  exists evs, w' = evs ++ w /\
              observation_properties observation = served_observation (rev evs !! 1%nat).
Proof.
  rewrite fetch_observation_stages. cbv zeta.
  destruct (truthy stations_url).
  2: { intros [= <- <-]. exists []. split; reflexivity. }
  destruct (urlopen E _ stations_url _) as [stations_data|e]; [|discriminate].
  destruct (py_get stations_data "features") as [features|e]; [|discriminate].
  destruct (truthy (py_or features (JList []))).
  2: { intros [= <- <-]. eexists [_]. split; reflexivity. }
  destruct (py_index0 _) as [station|e]; [|discriminate].
  destruct (py_get station "id") as [latest_url|e]; [|discriminate].
  destruct (truthy latest_url).
  2: { intros [= <- <-]. eexists [_]. split; reflexivity. }
  destruct (py_add_str latest_url "/") as [base|e]; [|discriminate].
  destruct (urljoin L base "observations/latest") as [joined|e]; [|discriminate].
  destruct (urlopen E _ (JStr _) _) as [obs|e] eqn:Hobs.
  - intros [= <- <-]. eexists [_; _]. split; [reflexivity|]. cbn.
    destruct obs; reflexivity.
  - destruct (observation_caught e); [|discriminate].
    intros [= <- <-]. eexists [_; _]. split; reflexivity.
Qed.

(** A run that succeeds went through the points call and the forecast call,
    in this order, and then through the observation part. *)
Lemma fetch_from_nws_ok L E w payload w' :
  _fetch_from_nws L E w = (Ok payload, w') ->
  exists f url1 hs1 point_data url2 hs2 fd evs,
    w' = evs ++ [EvRequest url2 hs2 (Ok (JDict fd));
                 EvRequest url1 hs1 (Ok point_data); EvConfig f] ++ w /\
    payload = JDict [("forecast", served_forecast fd);
                     ("observation", served_observation (rev evs !! 1%nat))].
Proof.
  rewrite fetch_from_nws_stages. cbv zeta.
  destruct (read_config L _) as [[[lat lon] contact]|e]; [|discriminate].
  destruct (urlopen E _ (JStr _) _) as [point_data|e]; [|discriminate].
  destruct (point_urls point_data) as [[forecast_url stations_url]|e]; [|discriminate].
  destruct (truthy forecast_url); [|discriminate].
  destruct (urlopen E _ forecast_url _) as [forecast_data|e]; [|discriminate].
  destruct (truncate_periods forecast_data) as [forecast_data'|e] eqn:Htrunc; [|discriminate].
  destruct (fetch_observation L E stations_url _ _) as [[observation|e] w4] eqn:Hobs;
    [|discriminate].
  destruct (py_get_default forecast_data' "properties" (JDict [])) as [forecast|e] eqn:Hget;
    [|discriminate].
  intros [= <- <-].
  destruct (fetch_observation_served _ _ _ _ _ _ _ Hobs) as (evs & -> & Hserved).
  destruct (truncate_periods_served _ _ _ Htrunc Hget) as (fd & -> & ->).
  rewrite Hserved. do 8 eexists. split; reflexivity.
Qed.

Lemma fetch_events_ok evs e3 e2 e1 w :
  fetch_events w (evs ++ [e3; e2; e1] ++ w) = [e1; e2; e3] ++ rev evs.
Proof.
  rewrite app_assoc, fetch_events_app, rev_app_distr. reflexivity.
Qed.

Lemma successful_run_payload L E w payload w' :
  _fetch_from_nws L E w = (Ok payload, w') ->
  exists url hs fd,
    fetch_events w w' !! 2%nat = Some (EvRequest url hs (Ok (JDict fd))) /\
    payload = JDict [("forecast", served_forecast fd);
                     ("observation", served_observation (fetch_events w w' !! 4%nat))].
Proof.
  intros H.
  destruct (fetch_from_nws_ok _ _ _ _ _ H)
    as (f & url1 & hs1 & point_data & url2 & hs2 & fd & evs & -> & ->).
  rewrite fetch_events_ok. exists url2, hs2, fd. split; reflexivity.
Qed.

(** C10: a run of the pipeline that succeeds returns a mapping with the two
    keys [forecast] and [observation], in this order and no other.  The
    forecast response, a JSON object, is the third event of the run;
    [forecast] is its [properties] value (with the periods cut to six), or
    an empty mapping when it has none.  [observation] is the [properties] value of the answer
    to the observation request, the fifth event, when that answer is a JSON
    object (null when the object has no such key); it is null in every
    other case: no such request, a request that failed, or an answer that
    is not an object. *)
Theorem fetch_from_nws_payload L E w payload w' :
  _fetch_from_nws L E w = (Ok payload, w') ->
  exists url hs fd,
    fetch_events w w' !! 2%nat = Some (EvRequest url hs (Ok (JDict fd))) /\
    payload = JDict [("forecast", served_forecast fd);
                     ("observation", served_observation (fetch_events w w' !! 4%nat))].
Proof. apply successful_run_payload. Qed.

Lemma fetch_from_nws_payload_witness :
  exists url hs fd w',
    _fetch_from_nws sample_lib healthy [] = (Ok sample_payload, w') /\
    fetch_events [] w' !! 2%nat = Some (EvRequest url hs (Ok (JDict fd))) /\
    sample_payload
    = JDict [("forecast", served_forecast fd);
             ("observation", served_observation (fetch_events [] w' !! 4%nat))].
Proof.
  destruct (_fetch_from_nws sample_lib healthy []) as [r w'] eqn:H.
  assert (Hr : r = Ok sample_payload)
    by (apply (f_equal fst) in H; cbn [fst] in H; rewrite <- H; vm_compute; reflexivity).
  subst r.
  destruct (fetch_from_nws_payload _ _ _ _ _ H) as (url & hs & fr & H2 & Hp).
  exists url, hs, fr, w'. auto.
Defined.

(** C7: when a run succeeds and the forecast response (the third event of
    the run) has a non-empty list [ps] under [properties.periods], the
    [forecast] of the payload is the [properties] mapping of that response
    with [periods] replaced by the first six elements of [ps], in their
    order: all of [ps] when it has six elements or fewer.  The other keys of
    the mapping keep their values. *)
Theorem forecast_periods_truncated L E w payload w' url hs fd props ps :
  _fetch_from_nws L E w = (Ok payload, w') ->
  fetch_events w w' !! 2%nat = Some (EvRequest url hs (Ok (JDict fd))) ->
  dict_get fd "properties" = Some (JDict props) ->
  dict_get props "periods" = Some (JList ps) ->
  ps <> [] ->
  exists props' observation,
    payload = JDict [("forecast", JDict props'); ("observation", observation)] /\
    dict_get props' "periods" = Some (JList (take 6 ps)) /\
    (forall k, k <> "periods" -> dict_get props' k = dict_get props k) /\
    length (take 6 ps) = Nat.min 6 (length ps) /\
    (length ps <= 6 -> take 6 ps = ps)%nat.
Proof.
  intros H Hev Hprops Hperiods Hne.
  destruct (successful_run_payload L E w payload w' H)
    as (url' & hs' & fd' & Hev' & ->).
  rewrite Hev in Hev'. injection Hev' as _ _ <-.
  exists (dict_set props "periods" (JList (take 6 ps))), (served_observation (fetch_events w w' !! 4%nat)).
  split.
  - unfold served_forecast. rewrite Hprops. unfold cut_periods. rewrite Hperiods.
    destruct ps; [contradiction | reflexivity].
  - split; [apply dict_get_set_eq|]. split; [intros k Hk; apply dict_get_set_ne; exact Hk|].
    split; [apply length_take | apply take_ge].
Qed.

Lemma forecast_periods_truncated_witness :
  exists props' observation,
    sample_payload = JDict [("forecast", JDict props'); ("observation", observation)] /\
    dict_get props' "periods" = Some (JList (map period [1; 2; 3; 4; 5; 6]%Z)) /\
    dict_get props' "units" = Some (JStr "us").
Proof.
  destruct (forecast_periods_truncated sample_lib healthy [] sample_payload
              (snd (_fetch_from_nws sample_lib healthy []))
              (JStr "https://api.weather.gov/gridpoints/BOU/62,61/forecast")
              sample_headers
              [("properties", JDict sample_forecast_properties)]
              sample_forecast_properties fourteen_periods)
    as (props' & observation & Hp & Hperiods & Hkeys & _ & _).
  - vm_compute. reflexivity.
  - vm_compute. reflexivity.
  - reflexivity.
  - reflexivity.
  - discriminate.
  - exists props', observation. split; [exact Hp|]. split; [exact Hperiods|].
    rewrite Hkeys; [reflexivity | discriminate].
Defined.

(** ** Failures in the observation part *)

(** The request for the latest observation is the one guarded call: when it
    raises one of the four classes of the [except] clause, the observation
    is [None] and the run goes on. *)
Lemma latest_observation_failure_absorbed L E stations_url hs w
    stations_data features station latest_url base joined e :
  truthy stations_url = true ->
  urlopen E (length w) stations_url (sent_headers hs) = Ok stations_data ->
  py_get stations_data "features" = Ok features ->
  truthy (py_or features (JList [])) = true ->
  py_index0 (py_or features (JList [])) = Ok station ->
  py_get station "id" = Ok latest_url ->
  truthy latest_url = true ->
  py_add_str latest_url "/" = Ok base ->
  urljoin L base "observations/latest" = Ok joined ->
  urlopen E (S (length w)) (JStr joined) (sent_headers hs) = Raise e ->
  observation_caught e = true ->
  fst (fetch_observation L E stations_url hs w) = Ok JNull.
Proof.
  intros H1 H2 H3 H4 H5 H6 H7 H8 Hjoin H9 H10.
  rewrite fetch_observation_stages. cbv zeta.
  rewrite H1, H2, H3, H4, H5, H6, H7, H8, Hjoin. cbn [length]. rewrite H9, H10. reflexivity.
Qed.

(** The request for the list of stations is not guarded: what it raises
    leaves the pipeline. *)
Lemma stations_failure_propagates L E stations_url hs w e :
  truthy stations_url = true ->
  urlopen E (length w) stations_url (sent_headers hs) = Raise e ->
  fst (fetch_observation L E stations_url hs w) = Raise e.
Proof.
  intros H1 H2. rewrite fetch_observation_stages. cbv zeta. rewrite H1, H2. reflexivity.
Qed.

(** C2 does not hold of the code.  In this run the configuration loads, the
    points call answers with a forecast URL and a stations URL, the forecast
    call answers, and the request for the list of stations times out.  The
    fetch fails with that error and the request is answered 502; the claim
    asks for 200 with the forecast and a null observation. *)
Theorem stations_failure_is_fatal :
  _fetch_from_nws sample_lib stations_down []
  = (Raise (URLError "<urlopen error timed out>"),
     [EvRequest (JStr "https://api.weather.gov/gridpoints/BOU/62,61/stations") sample_headers
        (Raise (URLError "<urlopen error timed out>"));
      EvRequest (JStr "https://api.weather.gov/gridpoints/BOU/62,61/forecast") sample_headers
        (Ok sample_forecast);
      EvRequest (JStr "https://api.weather.gov/points/39.7392,-104.9903") sample_headers
        (Ok sample_points);
      EvConfig (sample_config (JStr "ops@example.com"))])
  /\ fst (fst (do_GET sample_lib stations_down "/weather" 0 cold []))
     = SendError 502 "Upstream request failed: <urlopen error timed out>".
Proof. split; vm_compute; reflexivity. Qed.

(** ** Concurrent callers *)

Lemma set_thread_lookup s t th0 th i :
  threads s !! t = Some th0 ->
  set_thread s t th !! i = if decide (i = t) then Some th else threads s !! i.
Proof.
  intros Ht. unfold set_thread. destruct (decide (i = t)) as [->|Hne].
  - apply list_lookup_insert_eq. eapply lookup_lt_Some; eauto.
  - apply list_lookup_insert_ne. congruence.
Qed.

(** The two shapes of a step. *)
Lemma step_Enter L E s t now s' :
  step L E s (Enter t now) = Some s' ->
  threads s !! t = Some Waiting /\ CACHE_LOCK s = false /\
  ((exists payload, cache_hit (store s) now = Some payload /\
      s' = {| threads := set_thread s t (Returned (Ok payload)); CACHE_LOCK := false;
              store := store s; net := net s |})
   \/ (cache_hit (store s) now = None /\
       s' = {| threads := set_thread s t (Fetching now); CACHE_LOCK := true;
               store := store s; net := net s |})).
Proof.
  unfold step. destruct (threads s !! t) as [[| |]|]; try discriminate.
  destruct (CACHE_LOCK s); [discriminate|].
  destruct (cache_hit (store s) now) as [payload|]; intros [= <-]; eauto 10.
Qed.

Lemma step_Leave L E s t s' :
  step L E s (Leave t) = Some s' ->
  exists now r c' w',
    threads s !! t = Some (Fetching now) /\
    refresh L E now (store s) (net s) = (r, c', w') /\
    s' = {| threads := set_thread s t (Returned r); CACHE_LOCK := false;
            store := c'; net := w' |}.
Proof.
  unfold step. destruct (threads s !! t) as [[|now|]|]; try discriminate.
  destruct (refresh L E now (store s) (net s)) as [[r c'] w'] eqn:Href.
  intros [= <-]. exists now, r, c', w'. auto.
Qed.

Lemma mutex_unlocked s i th :
  mutex s -> CACHE_LOCK s = false -> threads s !! i = Some th -> is_fetching th = false.
Proof.
  intros Hm Hl Hi. destruct th as [|now|r]; try reflexivity.
  destruct (Hm _ _ Hi) as [Hlock _]. congruence.
Qed.

Lemma step_mutex L E s c s' : step L E s c = Some s' -> mutex s -> mutex s'.
Proof.
  intros Hstep Hm. destruct c as [t now|t].
  - apply step_Enter in Hstep as (Ht & Hl & [(p & _ & ->) | (_ & ->)]);
      intros i ni; cbn [threads CACHE_LOCK]; rewrite (set_thread_lookup _ _ _ _ _ Ht).
    + destruct (decide (i = t)); [discriminate|]. intros Hi.
      pose proof (mutex_unlocked _ _ _ Hm Hl Hi). discriminate.
    + destruct (decide (i = t)) as [->|Hne].
      * intros _. split; [reflexivity|]. intros j th Hj.
        rewrite (set_thread_lookup _ _ _ _ _ Ht). destruct (decide (j = t)); [contradiction|].
        apply mutex_unlocked; assumption.
      * intros Hi. pose proof (mutex_unlocked _ _ _ Hm Hl Hi). discriminate.
  - apply step_Leave in Hstep as (now & r & c' & w' & Ht & _ & ->).
    intros i ni. cbn [threads CACHE_LOCK]. rewrite (set_thread_lookup _ _ _ _ _ Ht).
    destruct (decide (i = t)); [discriminate|]. intros Hi.
    destruct (Hm _ _ Ht) as [_ Hothers]. pose proof (Hothers _ _ n Hi). discriminate.
Qed.

Lemma mutex_arrive n c w : mutex (arrive n c w).
Proof.
  intros i now Hi. cbn in Hi. apply lookup_replicate in Hi as [[=] _].
Qed.

Lemma run_mutex L E sched : forall s s', run L E s sched = Some s' -> mutex s -> mutex s'.
Proof.
  induction sched as [|c sched IH]; intros s s'; simpl.
  - intros [= <-]. auto.
  - destruct (step L E s c) as [s1|] eqn:Hstep; [|discriminate].
    intros Hrun Hm. eapply IH; [exact Hrun|]. eapply step_mutex; eauto.
Qed.

Lemma mutex_at_most_one s : mutex s -> at_most_one_fetching s.
Proof.
  intros Hm i j ni nj Hi Hj. destruct (decide (j = i)) as [->|Hne]; [reflexivity|].
  destruct (Hm _ _ Hi) as [_ Hothers]. pose proof (Hothers _ _ Hne Hj). discriminate.
Qed.

(** A caller that has returned stays so, with the same result. *)
Lemma step_returned L E s c s' i r :
  step L E s c = Some s' -> threads s !! i = Some (Returned r) ->
  threads s' !! i = Some (Returned r).
Proof.
  intros Hstep Hi. destruct c as [t now|t].
  - apply step_Enter in Hstep as (Ht & _ & [(p & _ & ->) | (_ & ->)]);
      cbn [threads]; rewrite (set_thread_lookup _ _ _ _ _ Ht);
      (destruct (decide (i = t)) as [->|]; [congruence | exact Hi]).
  - apply step_Leave in Hstep as (now & r' & c' & w' & Ht & _ & ->).
    cbn [threads]. rewrite (set_thread_lookup _ _ _ _ _ Ht).
    destruct (decide (i = t)) as [->|]; [congruence | exact Hi].
Qed.

Lemma run_returned L E sched : forall s s' i r,
  run L E s sched = Some s' -> threads s !! i = Some (Returned r) ->
  threads s' !! i = Some (Returned r).
Proof.
  induction sched as [|c sched IH]; intros s s' i r; simpl.
  - intros [= <-]. auto.
  - destruct (step L E s c) as [s1|] eqn:Hstep; [|discriminate].
    intros Hrun Hi. eapply IH; [exact Hrun|]. eapply step_returned; eauto.
Qed.

Lemma run_no_error L E sched s s' :
  run L E s sched = Some s' -> no_error s' -> no_error s.
Proof.
  intros Hrun Hne i e Hi. apply (Hne i e). eapply run_returned; eauto.
Qed.

Lemma step_length L E s c s' :
  step L E s c = Some s' -> length (threads s') = length (threads s).
Proof.
  intros Hstep. destruct c as [t now|t].
  - apply step_Enter in Hstep as (_ & _ & [(p & _ & ->) | (_ & ->)]);
      cbn [threads]; apply length_insert.
  - apply step_Leave in Hstep as (now & r' & c' & w' & _ & _ & ->).
    cbn [threads]. apply length_insert.
Qed.

Lemma run_length L E sched : forall s s',
  run L E s sched = Some s' -> length (threads s') = length (threads s).
Proof.
  induction sched as [|c sched IH]; intros s s'; simpl.
  - intros [= <-]. reflexivity.
  - destruct (step L E s c) as [s1|] eqn:Hstep; [|discriminate].
    intros Hrun. rewrite (IH _ _ Hrun). eapply step_length; eauto.
Qed.

Lemma in_window_hit t0 ts now :
  in_window t0 ts -> in_window t0 now -> (now - ts < CACHE_TTL)%Q.
Proof. unfold in_window, CACHE_TTL. intros [H1 H2] [H3 H4]. lra. Qed.

Lemma step_phase L E t0 runs0 s c s' :
  step L E s c = Some s' ->
  mutex s ->
  phase t0 runs0 s ->
  Forall (in_window t0) (readings [c]) ->
  no_error s' ->
  phase t0 runs0 s'.
Proof.
  intros Hstep Hm Hphase Hwin Hne. destruct c as [t now|t].
  - apply Forall_cons in Hwin as [Hnow _].
    apply step_Enter in Hstep as (Ht & Hl & [(p & Hhit & ->) | (Hmiss & ->)]).
    + apply cache_hit_Some in Hhit as [Hp _].
      destruct Hphase as [(Hnone & _) | (p' & Hp' & Hts & Hruns & Hths)]; [congruence|].
      right. exists p'. cbn [threads store net]. repeat split; try assumption; try apply Hts.
      intros i th. rewrite (set_thread_lookup _ _ _ _ _ Ht).
      destruct (decide (i = t)); [|apply Hths].
      intros [= <-]. right. congruence.
    + destruct Hphase as [(Hnone & Hruns & Hret & Hfetch) | (p' & Hp' & Hts & _)].
      * left. cbn [threads store net]. split; [assumption|]. split; [assumption|]. split.
        -- intros i th. rewrite (set_thread_lookup _ _ _ _ _ Ht).
           destruct (decide (i = t)); [intros [= <-]; reflexivity | apply Hret].
        -- intros i ni. rewrite (set_thread_lookup _ _ _ _ _ Ht).
           destruct (decide (i = t)); [intros [= <-]; exact Hnow | apply Hfetch].
      * exfalso. apply cache_hit_None in Hmiss as [Hnone | Hold]; [congruence|].
        pose proof (in_window_hit _ _ _ Hts Hnow) as Hlt.
        exact (Qlt_not_le _ _ Hlt Hold).
  - apply step_Leave in Hstep as (now & r & c' & w' & Ht & Href & ->).
    destruct Hphase as [(Hnone & Hruns & Hret & Hfetch) | (p' & _ & _ & _ & Hths)].
    2: { destruct (Hths _ _ Ht); discriminate. }
    unfold refresh in Href.
    destruct (_fetch_from_nws L E (net s)) as [[p|e] w1] eqn:Hf; injection Href as <- <- <-.
    + right. exists p. cbn [threads store net _cache_payload _cache_timestamp].
      split; [reflexivity|]. split; [apply (Hfetch _ _ Ht)|].
      split; [rewrite (fetch_from_nws_runs _ _ _ _ _ Hf); congruence|].
      intros i th. rewrite (set_thread_lookup _ _ _ _ _ Ht).
      destruct (decide (i = t)) as [->|Hit]; [intros [= <-]; right; reflexivity|].
      intros Hi. left. destruct (Hm _ _ Ht) as [_ Hothers].
      pose proof (Hothers _ _ Hit Hi) as Hnf. pose proof (Hret _ _ Hi) as Hnr.
      destruct th; [reflexivity | discriminate | discriminate].
    + exfalso. apply (Hne t e). cbn [threads].
      rewrite (set_thread_lookup _ _ _ _ _ Ht). destruct (decide (t = t)); congruence.
Qed.

Lemma readings_cons c sched : readings (c :: sched) = readings [c] ++ readings sched.
Proof. destruct c; reflexivity. Qed.

Lemma run_phase L E t0 runs0 sched : forall s s',
  run L E s sched = Some s' ->
  mutex s ->
  phase t0 runs0 s ->
  Forall (in_window t0) (readings sched) ->
  no_error s' ->
  phase t0 runs0 s'.
Proof.
  induction sched as [|c sched IH]; intros s s'; simpl run.
  - intros [= <-]. auto.
  - destruct (step L E s c) as [s1|] eqn:Hstep; [|discriminate].
    intros Hrun Hm Hphase Hwin Hne.
    rewrite readings_cons in Hwin. apply Forall_app in Hwin as [Hc Hrest].
    eapply IH; [exact Hrun | eapply step_mutex; eauto | | exact Hrest | exact Hne].
    eapply step_phase; eauto. eapply run_no_error; eauto.
Qed.

Lemma phase_arrive t0 n c w :
  _cache_payload c = None -> phase t0 (pipeline_runs w) (arrive n c w).
Proof.
  intros Hnone. left. cbn [arrive threads store net].
  split; [assumption|]. split; [reflexivity|]. split.
  - intros i th Hi. apply lookup_replicate in Hi as [-> _]. reflexivity.
  - intros i now Hi. apply lookup_replicate in Hi as [[=] _].
Qed.

(** One caller alone: entering, and leaving after a miss, is a call of
    [_get_cached_weather]. *)
Lemma lone_caller L E now c w :
  let '(r, c', w') := _get_cached_weather L E now c w in
  run L E (arrive 1 c w)
      (Enter 0 now :: match cache_hit c now with Some _ => [] | None => [Leave 0] end)
  = Some {| threads := [Returned r]; CACHE_LOCK := false; store := c'; net := w' |}.
Proof.
  unfold _get_cached_weather. cbn. destruct (cache_hit c now) as [p|]; [reflexivity|].
  cbn. destruct (refresh L E now c w) as [[r c'] w']. reflexivity.
Qed.

(** While a caller is inside the pipeline the other ones cannot enter. *)
Example blocked_while_fetching :
  run sample_lib healthy (arrive 2 cold []) [Enter 0 0; Enter 1 1] = None.
Proof. reflexivity. Qed.

(** C1, as the claim words it, fails when the upstream is down: nothing is
    cached on a failure, so each of two callers that arrive within a second
    of each other on a cold cache runs the pipeline, and each is handed an
    error. *)
Lemma every_caller_fetches_when_upstream_down : ~ claimed_one_run.
Proof.
  intros H.
  pose proof (H sample_lib unreachable 2%nat cold [] two_in_turn) as H'.
  destruct (run sample_lib unreachable (arrive 2 cold []) two_in_turn) as [s|] eqn:Hrun;
    [|vm_compute in Hrun; discriminate].
  vm_compute in Hrun. injection Hrun as <-.
  assert (Hwin : one_window two_in_turn).
  { exists 0%Q. unfold two_in_turn, CACHE_TTL. cbn [readings]. repeat constructor; lra. }
  destruct (H' _ eq_refl Hwin eq_refl) as [Hruns _].
  - intros [|[|i]] th; cbn; intros [= <-]; reflexivity.
  - vm_compute in Hruns. discriminate.
Qed.

(** C1, amended: however [n] concurrent callers are scheduled, at most one
    of them is inside the fetch pipeline at any time.  When moreover the
    cache is cold, [n] is at least one, the clock readings of the callers
    lie within one window of the length of the TTL and no caller is handed
    an error (no fetch fails), then the pipeline has run exactly once when
    all have returned, and all [n] callers have the same payload. *)
Theorem single_flight L E n c w sched s :
  run L E (arrive n c w) sched = Some s ->
  at_most_one_fetching s /\
  (_cache_payload c = None ->
   one_window sched ->
   (0 < n)%nat ->
   (forall i th, threads s !! i = Some th -> exists payload, th = Returned (Ok payload)) ->
   pipeline_runs (net s) = S (pipeline_runs w) /\
   exists payload, forall i, (i < n)%nat -> threads s !! i = Some (Returned (Ok payload))).
Proof.
  intros Hrun.
  pose proof (run_mutex _ _ _ _ _ Hrun (mutex_arrive n c w)) as Hm.
  split; [apply mutex_at_most_one; exact Hm|].
  intros Hcold [t0 Hwin] Hn Hall.
  assert (Hne : no_error s).
  { intros i e Hi. destruct (Hall _ _ Hi) as [p [=]]. }
  pose proof (run_phase L E t0 (pipeline_runs w) sched _ _ Hrun
                (mutex_arrive n c w) (phase_arrive t0 n c w Hcold) Hwin Hne) as Hphase.
  pose proof (run_length _ _ _ _ _ Hrun) as Hlen.
  cbn [arrive threads] in Hlen. rewrite length_replicate in Hlen.
  assert (Hlook : forall i, (i < n)%nat -> exists th, threads s !! i = Some th).
  { intros i Hi. apply lookup_lt_is_Some. lia. }
  destruct Hphase as [(_ & _ & Hret & _) | (p & _ & _ & Hruns & Hths)].
  - exfalso. destruct (Hlook 0%nat Hn) as [th Hth].
    destruct (Hall _ _ Hth) as [p ->]. pose proof (Hret _ _ Hth). discriminate.
  - split; [exact Hruns|]. exists p. intros i Hi.
    destruct (Hlook i Hi) as [th Hth]. rewrite Hth. f_equal.
    destruct (Hths _ _ Hth) as [-> | ->]; [|reflexivity].
    destruct (Hall _ _ Hth) as [p' [=]].
Qed.

Lemma single_flight_witness :
  exists s,
    run sample_lib healthy (arrive 3 cold []) three_callers = Some s /\
    at_most_one_fetching s /\
    pipeline_runs (net s) = 1%nat /\
    exists payload, forall i, (i < 3)%nat -> threads s !! i = Some (Returned (Ok payload)).
Proof.
  destruct (run sample_lib healthy (arrive 3 cold []) three_callers) as [s|] eqn:Hrun;
    [|vm_compute in Hrun; discriminate].
  exists s. split; [reflexivity|].
  destruct (single_flight _ _ _ _ _ _ _ Hrun) as [Hone Hflight].
  split; [exact Hone|]. apply Hflight.
  - reflexivity.
  - exists 0%Q. unfold three_callers, CACHE_TTL. cbn [readings].
    repeat constructor; lra.
  - lia.
  - vm_compute in Hrun. injection Hrun as <-.
    intros [|[|[|i]]] th; cbn; intros [= <-]; eexists; reflexivity.
Defined.

(** * Further properties *)

(** ** Routing *)

Lemma rstrip_slashes n : rstrip_by (Ascii.eqb "/") (slashes n) = EmptyString.
Proof. induction n as [|n IH]; simpl; [reflexivity|]. rewrite IH. reflexivity. Qed.

Lemma rstrip_app_slashes s n :
  rstrip_by (Ascii.eqb "/") (s +:+ slashes n) = rstrip_by (Ascii.eqb "/") s.
Proof.
  induction s as [|c s IH]; simpl.
  - apply rstrip_slashes.
  - rewrite IH. reflexivity.
Qed.

Lemma rstrip_slash_inv s :
  exists n, s = rstrip_by (Ascii.eqb "/") s +:+ slashes n.
Proof.
  induction s as [|c s [n IH]]; cbn [rstrip_by].
  - exists 0%nat. reflexivity.
  - destruct (rstrip_by (Ascii.eqb "/") s) as [|c' r] eqn:Hr.
    + destruct (Ascii.eqb "/" c) eqn:Hc.
      * apply Ascii.eqb_eq in Hc. subst c. exists (S n).
        change (String "/" s = String "/" (slashes n)). f_equal. exact IH.
      * exists n. change (String c s = String c (slashes n)). f_equal. exact IH.
    + exists n. change (String c s = String c (String c' r +:+ slashes n)).
      f_equal. exact IH.
Qed.

(** X1: the weather route is taken by the paths made of slashes only and by
    [/weather] followed by any number of slashes, and by no other path.  A
    request on any other path is answered 404 "Not Found"; the cache is not
    read and nothing is logged in the trace. *)
Theorem weather_route_paths_exactly L E path now c w :
  (weather_route path = true <->
   exists n, path = slashes n \/ path = "/weather" +:+ slashes n) /\
  (weather_route path = false ->
   do_GET L E path now c w = (SendError 404 "Not Found", c, w)).
Proof.
  split.
  - unfold weather_route. split.
    + intros H. destruct (rstrip_slash_inv path) as [n Hn]. exists n.
      apply orb_true_iff in H as [H | H]; apply String.eqb_eq in H;
        rewrite H in Hn; [left | right]; exact Hn.
    + intros [n [-> | ->]].
      * rewrite rstrip_slashes. reflexivity.
      * rewrite rstrip_app_slashes. reflexivity.
  - intros H. unfold do_GET. rewrite H. reflexivity.
Qed.

Lemma weather_route_paths_exactly_witness :
  weather_route "/weather//" = true /\
  do_GET sample_lib healthy "/weather/now" 0 cold []
  = (SendError 404 "Not Found", cold, []).
Proof.
  split.
  - apply (weather_route_paths_exactly sample_lib healthy "/weather//" 0 cold []).
    exists 2%nat. right. reflexivity.
  - apply (weather_route_paths_exactly sample_lib healthy "/weather/now" 0 cold []).
    reflexivity.
Defined.




(** ** What [_format_user_agent] returns *)

Lemma append_assoc (a b c : string) : (a +:+ b) +:+ c = a +:+ (b +:+ c).
Proof.
  induction a as [|x a IH]; [reflexivity|].
  change (String x ((a +:+ b) +:+ c) = String x (a +:+ (b +:+ c))). f_equal. exact IH.
Qed.

Lemma contains_app c a b : contains c (a +:+ b) = contains c a || contains c b.
Proof.
  induction a as [|x a IH]; [reflexivity|].
  change (Ascii.eqb c x || contains c (a +:+ b)
          = Ascii.eqb c x || contains c a || contains c b).
  rewrite IH. apply orb_assoc.
Qed.

(** No white space ends with a closing parenthesis. *)
Lemma is_space_paren p : is_space (p +:+ ")") = false.
Proof.
  destruct p as [|a [|b [|c [|d p]]]]; try reflexivity.
  - change (((code a =? 194) && ((41 =? 133) || (41 =? 160)))%N = false).
    apply andb_false_r.
  - change (((code a =? 225) && (code b =? 154) && (41 =? 128)
             || (code a =? 226) && (code b =? 128)
                && ((128 <=? 41) && (41 <=? 138) || (41 =? 168) || (41 =? 169) || (41 =? 175))
             || (code a =? 226) && (code b =? 129) && (41 =? 159)
             || (code a =? 227) && (code b =? 128) && (41 =? 128))%N = false).
    cbn [N.eqb N.leb N.compare Pos.eqb Pos.compare Pos.compare_cont orb andb].
    rewrite !andb_false_r. reflexivity.
Qed.

Lemma rstrip_last s c :
  (forall p, is_space (p +:+ String c EmptyString) = false) ->
  rstrip (s +:+ String c EmptyString) = s +:+ String c EmptyString.
Proof.
  intros Hc. induction s as [|x s IH].
  - change (rstrip (String c EmptyString) = String c EmptyString).
    cbn [rstrip]. pose proof (Hc EmptyString) as H0.
    change (is_space (String c EmptyString) = false) in H0. rewrite H0. reflexivity.
  - change (rstrip (String x (s +:+ String c EmptyString))
            = String x (s +:+ String c EmptyString)).
    cbn [rstrip]. rewrite IH. pose proof (Hc (String x s)) as Hx.
    change (is_space (String x (s +:+ String c EmptyString)) = false) in Hx.
    rewrite Hx. reflexivity.
Qed.

Lemma strip_wrapped s :
  strip ("LegacyDashboardProxy/1.0 (" +:+ s +:+ ")")
  = "LegacyDashboardProxy/1.0 (" +:+ s +:+ ")".
Proof.
  unfold strip.
  change (lstrip ("LegacyDashboardProxy/1.0 (" +:+ s +:+ ")"))
    with ("LegacyDashboardProxy/1.0 (" +:+ s +:+ ")").
  rewrite <- append_assoc. apply rstrip_last. exact is_space_paren.
Qed.

(** X5: whatever the contact, the User-Agent is not empty, has no white
    space at either end, holds a slash or an opening parenthesis, and is left
    as it is when it is itself given as the contact. *)
Theorem format_user_agent_output (raw : option string) :
  let ua := _format_user_agent raw in
  ua <> "" /\
  strip ua = ua /\
  (contains "/" ua = true \/ contains "(" ua = true) /\
  _format_user_agent (Some ua) = ua.
Proof.
  assert (Hfix : forall ua, ua <> "" -> strip ua = ua ->
            (contains "/" ua = true \/ contains "(" ua = true) ->
            _format_user_agent (Some ua) = ua).
  { intros ua Hne Hstrip Hcont. unfold _format_user_agent. cbn [default from_option id].
    rewrite Hstrip. apply is_empty_false in Hne. rewrite Hne.
    destruct Hcont as [-> | ->]; [reflexivity|].
    destruct (contains "/" ua); reflexivity. }
  cbv zeta.
  assert (H : _format_user_agent raw <> "" /\
              strip (_format_user_agent raw) = _format_user_agent raw /\
              (contains "/" (_format_user_agent raw) = true \/
               contains "(" (_format_user_agent raw) = true)).
  { unfold _format_user_agent. set (s := strip (default "" raw)).
    destruct (is_empty s) eqn:Hs.
    - repeat split; [discriminate | left; reflexivity].
    - destruct (negb (contains "/" s) && negb (contains "(" s)) eqn:Hc.
      + split; [discriminate|]. split; [apply strip_wrapped|].
        left. rewrite contains_app. reflexivity.
      + split; [apply is_empty_false; exact Hs|]. split; [apply strip_idem|].
        apply andb_false_iff in Hc as [Hc | Hc]; apply negb_false_iff in Hc; auto. }
  destruct H as (H1 & H2 & H3). repeat split; auto.
Qed.

(** ** Configuration and malformed answers *)



(** X4: when the points call answers with JSON that is not an object, the
    pipeline raises [AttributeError] on its first [.get]; no clause of the
    handler catches it, so the request gets no HTTP answer from [do_GET],
    and the points call is the only request sent. *)
Theorem points_not_an_object_unhandled L E path now c w latitude longitude contact point_data :
  weather_route path = true ->
  cache_hit c now = None ->
  read_config L (config_json E (length w)) = Ok (latitude, longitude, contact) ->
  urlopen E (S (length w)) (JStr (point_url L latitude longitude))
    (sent_headers (request_headers contact)) = Ok point_data ->
  (forall d, point_data <> JDict d) ->
  do_GET L E path now c w
  = (Unhandled (no_attribute point_data "get"), c,
     [EvRequest (JStr (point_url L latitude longitude))
        (sent_headers (request_headers contact)) (Ok point_data);
      EvConfig (config_json E (length w))] ++ w).
Proof.
  intros Hroute Hmiss Hcfg Hpoint Hnot.
  unfold do_GET. rewrite Hroute. cbn [negb].
  rewrite get_cached_weather_miss by exact Hmiss. unfold refresh.
  rewrite fetch_from_nws_stages. cbv zeta. rewrite Hcfg. cbn [length]. rewrite Hpoint.
  destruct point_data as [| | | | | |d]; try reflexivity.
  exfalso. exact (Hnot d eq_refl).
Qed.

Lemma points_not_an_object_unhandled_witness :
  fst (fst (do_GET sample_lib malformed_points "/weather" 0 cold []))
  = Unhandled (AttributeError "'list' object has no attribute 'get'").
Proof.
  rewrite (points_not_an_object_unhandled sample_lib malformed_points "/weather" 0 cold []
             (397392 # 10000) (-1049903 # 10000) "ops@example.com"
             (JList [JStr "maintenance"])).
  - reflexivity.
  - reflexivity.
  - reflexivity.
  - reflexivity.
  - reflexivity.
  - discriminate.
Defined.

(** ** The traffic of a run *)

Ltac destruct_stages :=
  repeat match goal with
         | |- context [match ?x with _ => _ end] => destruct x eqn:?
         end.

Lemma fetch_observation_shape L E stations_url hs w r w' :
  fetch_observation L E stations_url hs w = (r, w') ->
  exists evs, w' = evs ++ w /\ (length evs <= 2)%nat /\
              Forall (request_with (sent_headers hs)) evs.
Proof.
  rewrite fetch_observation_stages. cbv zeta. destruct_stages; intros [= <- <-];
    first [ exists []; split; [reflexivity|]; split; [cbn; lia | constructor]
          | eexists [_]; split; [reflexivity|]; split; [cbn; lia|];
            repeat constructor; eexists _, _; reflexivity
          | eexists [_; _]; split; [reflexivity|]; split; [cbn; lia|];
            repeat constructor; eexists _, _; reflexivity ].
Qed.

(** A run reads [config.json]; when that fails it stops; otherwise it sends
    the points request and at most three more, all with the same headers. *)
Lemma fetch_from_nws_shape L E w r w' :
  _fetch_from_nws L E w = (r, w') ->
  match read_config L (config_json E (length w)) with
  | Raise e => w' = [EvConfig (config_json E (length w))] ++ w
  | Ok (latitude, longitude, contact) =>
      exists r1 rest,
        w' = rest ++ [EvRequest (JStr (point_url L latitude longitude))
                        (sent_headers (request_headers contact)) r1;
                      EvConfig (config_json E (length w))] ++ w /\
        (length rest <= 3)%nat /\
        Forall (request_with (sent_headers (request_headers contact))) rest
  end.
Proof.
  rewrite fetch_from_nws_stages. cbv zeta.
  destruct (read_config L _) as [[[lat lon] contact]|e]; [|intros [= <- <-]; reflexivity].
  assert (Hnil : forall hs : headers, Forall (request_with hs) []) by constructor.
  destruct (urlopen E _ (JStr _) _) as [point_data|e].
  2: { intros [= <- <-]. eexists _, []. split; [reflexivity|]. split; [cbn; lia | auto]. }
  destruct (point_urls point_data) as [[forecast_url stations_url]|e].
  2: { intros [= <- <-]. eexists _, []. split; [reflexivity|]. split; [cbn; lia | auto]. }
  destruct (truthy forecast_url).
  2: { intros [= <- <-]. eexists _, []. split; [reflexivity|]. split; [cbn; lia | auto]. }
  assert (Hone : forall url (hs : headers) x, Forall (request_with hs) [EvRequest url hs x]).
  { intros. repeat constructor. eexists _, _. reflexivity. }
  destruct (urlopen E _ forecast_url _) as [forecast_data|e].
  2: { intros [= <- <-]. eexists _, [_]. split; [reflexivity|]. split; [cbn; lia | auto]. }
  destruct (truncate_periods forecast_data) as [forecast_data'|e].
  2: { intros [= <- <-]. eexists _, [_]. split; [reflexivity|]. split; [cbn; lia | auto]. }
  destruct (fetch_observation L E stations_url _ _) as [ro w4] eqn:Hobs.
  destruct (fetch_observation_shape _ _ _ _ _ _ _ Hobs) as (evs & -> & Hlen & Hall).
  assert (Hshape : exists r1 rest,
            evs ++ EvRequest forecast_url (sent_headers (request_headers contact))
                     (Ok forecast_data)
                :: EvRequest (JStr (point_url L lat lon))
                     (sent_headers (request_headers contact)) (Ok point_data)
                :: EvConfig (config_json E (length w)) :: w
            = rest ++ [EvRequest (JStr (point_url L lat lon))
                         (sent_headers (request_headers contact)) r1;
                       EvConfig (config_json E (length w))] ++ w /\
            (length rest <= 3)%nat /\
            Forall (request_with (sent_headers (request_headers contact))) rest).
  { eexists _, (evs ++ [_]). split; [rewrite <- app_assoc; reflexivity|].
    split; [rewrite length_app; cbn; lia|]. apply Forall_app. split; [exact Hall | auto]. }
  destruct ro as [observation|e]; [|intros [= <- <-]; exact Hshape].
  destruct (py_get_default forecast_data' "properties" (JDict []));
    intros [= <- <-]; exact Hshape.
Qed.

Lemma request_count_requests hs evs :
  Forall (request_with hs) evs -> request_count evs = length evs.
Proof.
  unfold request_count. induction 1 as [|e evs (url & r & ->) _ IH]; [reflexivity|].
  cbn. f_equal. exact IH.
Qed.

Lemma request_count_app evs1 evs2 :
  request_count (evs1 ++ evs2) = (request_count evs1 + request_count evs2)%nat.
Proof. unfold request_count. rewrite List.filter_app, length_app. reflexivity. Qed.

(** X7: one request to the proxy costs the upstream at most four requests
    and reads [config.json] at most once; a request off the weather route,
    or one served from a cache entry younger than the TTL, costs nothing. *)
Theorem do_GET_traffic L E path now c w :
  exists evs,
    snd (do_GET L E path now c w) = evs ++ w /\
    (request_count evs <= 4)%nat /\
    (pipeline_runs evs <= 1)%nat /\
    (weather_route path = false \/ cache_hit c now <> None -> evs = []).
Proof.
  unfold do_GET. destruct (weather_route path) eqn:Hroute; cbn [negb].
  2: { exists []. cbn. repeat split; auto; lia. }
  unfold _get_cached_weather. destruct (cache_hit c now) as [p|] eqn:Hhit.
  { exists []. cbn. repeat split; auto; lia. }
  unfold refresh. destruct (_fetch_from_nws L E w) as [r w'] eqn:Hf.
  pose proof (fetch_from_nws_shape _ _ _ _ _ Hf) as Hshape.
  assert (H : exists evs, w' = evs ++ w /\ (request_count evs <= 4)%nat /\
                          (pipeline_runs evs <= 1)%nat).
  { destruct (read_config L _) as [[[lat lon] contact]|e].
    - destruct Hshape as (r1 & rest & -> & Hlen & Hall).
      eexists (rest ++ [_; _]). split; [rewrite <- app_assoc; reflexivity|].
      rewrite request_count_app, (request_count_requests _ _ Hall). split; [cbn; lia|].
      unfold pipeline_runs. rewrite List.filter_app, length_app.
      assert (Hz : length (List.filter is_config rest) = 0%nat).
      { clear -Hall. induction Hall as [|e evs (url & r & ->) _ IH]; [reflexivity | exact IH]. }
      rewrite Hz. cbn. lia.
    - subst w'. exists [EvConfig (config_json E (length w))].
      split; [reflexivity|]. cbn. lia. }
  destruct H as (evs & -> & Hreq & Hruns).
  exists evs. destruct r as [payload|e]; cbn [snd]; repeat split; auto;
    intros [H | H]; congruence.
Qed.

Lemma do_GET_traffic_witness :
  snd (do_GET sample_lib healthy "/weather" 200 sample_warm []) = [].
Proof.
  destruct (do_GET_traffic sample_lib healthy "/weather" 200 sample_warm [])
    as (evs & Hw & _ & _ & Hnone).
  rewrite Hw, Hnone; [reflexivity|]. right. vm_compute. discriminate.
Defined.

Example do_GET_traffic_reached :
  request_count (snd (do_GET sample_lib healthy "/weather" 0 cold [])) = 4%nat.
Proof. vm_compute. reflexivity. Qed.

(** X8: when the configuration loads, the first request of a run goes to
    [https://api.weather.gov/points/<latitude>,<longitude>], and every
    request of the run carries the same headers: [Accept:
    application/geo+json], the [User-Agent] built from the contact, and
    [From] with the contact, which is left out when the contact is empty. *)
Theorem requests_of_a_run L E w r w' latitude longitude contact :
  _fetch_from_nws L E w = (r, w') ->
  read_config L (config_json E (length w)) = Ok (latitude, longitude, contact) ->
  exists hs r1 rest,
    hs = [("Accept", "application/geo+json");
          ("User-Agent", _format_user_agent (Some contact))]
         ++ (if is_empty contact then [] else [("From", contact)]) /\
    fetch_events w w'
    = [EvConfig (config_json E (length w));
       EvRequest (JStr (point_url L latitude longitude)) hs r1] ++ rest /\
    Forall (request_with hs) rest.
Proof.
  intros Hf Hcfg. pose proof (fetch_from_nws_shape _ _ _ _ _ Hf) as Hshape.
  rewrite Hcfg in Hshape. destruct Hshape as (r1 & rest & -> & _ & Hall).
  exists (sent_headers (request_headers contact)), r1, (rev rest).
  split; [unfold request_headers; destruct (is_empty contact); reflexivity|].
  split; [|apply Forall_rev; exact Hall].
  rewrite app_assoc, fetch_events_app, rev_app_distr. reflexivity.
Qed.

Lemma requests_of_a_run_witness :
  exists r1 rest,
    fetch_events [] (snd (_fetch_from_nws sample_lib healthy []))
    = [EvConfig (sample_config (JStr "ops@example.com"));
       EvRequest (JStr "https://api.weather.gov/points/39.7392,-104.9903")
         sample_headers r1] ++ rest /\
    Forall (request_with sample_headers) rest.
Proof.
  destruct (_fetch_from_nws sample_lib healthy []) as [r w'] eqn:Hf.
  destruct (requests_of_a_run sample_lib healthy [] r w'
              (397392 # 10000) (-1049903 # 10000) "ops@example.com" Hf eq_refl)
    as (hs & r1 & rest & -> & Hev & Hall).
  exists r1, rest. split; [exact Hev | exact Hall].
Defined.

(** ** The served periods *)

Lemma cut_periods_bound properties p ps :
  cut_periods properties = JDict p ->
  dict_get p "periods" = Some (JList ps) ->
  (length ps <= 6)%nat.
Proof.
  unfold cut_periods. destruct properties as [| | | | | |q]; try discriminate.
  destruct (dict_get q "periods") as [[| | | | |[|x xs]|]|] eqn:Hq;
    intros [= <-]; try (rewrite Hq; intros [= <-]; cbn; lia); try (rewrite Hq; discriminate).
  assert (Hlen : (length (take 6 (x :: xs)) <= 6)%nat) by (rewrite length_take; lia).
  rewrite dict_get_set_eq. intros [= <-]. exact Hlen.
Qed.

(** X9: whatever the upstream sends, a payload the pipeline returns never
    lists more than six forecast periods. *)
Theorem at_most_six_periods L E w payload w' :
  _fetch_from_nws L E w = (Ok payload, w') ->
  exists forecast observation,
    payload = JDict [("forecast", forecast); ("observation", observation)] /\
    forall p ps,
      forecast = JDict p -> dict_get p "periods" = Some (JList ps) ->
      (length ps <= 6)%nat.
Proof.
  intros H. destruct (successful_run_payload _ _ _ _ _ H) as (url & hs & fd & _ & ->).
  eexists _, _. split; [reflexivity|]. intros p ps Hp Hps.
  unfold served_forecast in Hp. destruct (dict_get fd "properties") as [properties|].
  - eapply cut_periods_bound; eauto.
  - injection Hp as <-. discriminate.
Qed.

Lemma at_most_six_periods_witness :
  exists forecast observation,
    sample_payload = JDict [("forecast", forecast); ("observation", observation)] /\
    forall p ps,
      forecast = JDict p -> dict_get p "periods" = Some (JList ps) ->
      (length ps <= 6)%nat.
Proof.
  apply (at_most_six_periods sample_lib healthy [] sample_payload
           (snd (_fetch_from_nws sample_lib healthy []))).
  vm_compute. reflexivity.
Defined.

(** ** Reuse of a fetched payload *)

(** X10: the payload a call returns is the one the cache holds after the
    call.  When the call had to fetch, the entry carries the clock reading of
    that call, and every later call whose clock reading is less than the TTL
    after it returns the same payload and leaves the cache and the trace
    alone, whatever has become of the upstream and of [config.json]. *)
Theorem fetched_payload_reused L E now c w payload c' w' :
  _get_cached_weather L E now c w = (Ok payload, c', w') ->
  _cache_payload c' = Some payload /\
  (cache_hit c now = None ->
   _cache_timestamp c' = now /\
   forall E' now' w2,
     (now' - now < CACHE_TTL)%Q ->
     _get_cached_weather L E' now' c' w2 = (Ok payload, c', w2)).
Proof.
  unfold _get_cached_weather at 1. destruct (cache_hit c now) as [p|] eqn:Hhit.
  - intros [= <- <- <-]. apply cache_hit_Some in Hhit as [Hp _].
    split; [exact Hp | discriminate].
  - unfold refresh. destruct (_fetch_from_nws L E w) as [[p|e] w1]; [|discriminate].
    intros [= <- <- <-]. split; [reflexivity|]. intros _. split; [reflexivity|].
    intros E' now' w2 Hlt. unfold _get_cached_weather.
    rewrite (proj2 (cache_hit_Some _ now' p)); [reflexivity|].
    split; [reflexivity | exact Hlt].
Qed.

Lemma fetched_payload_reused_witness :
  exists c' w',
    _get_cached_weather sample_lib healthy 0 cold [] = (Ok sample_payload, c', w') /\
    _get_cached_weather sample_lib unreachable 299 c' w' = (Ok sample_payload, c', w').
Proof.
  destruct (_get_cached_weather sample_lib healthy 0 cold []) as [[r c'] w'] eqn:H.
  assert (Hr : r = Ok sample_payload)
    by (apply (f_equal (fun x => fst (fst x))) in H; cbn [fst] in H; rewrite <- H;
        vm_compute; reflexivity).
  subst r. exists c', w'. split; [reflexivity|].
  destruct (fetched_payload_reused _ _ _ _ _ _ _ _ H) as [_ Hreuse].
  destruct (Hreuse eq_refl) as [_ Hlater].
  apply Hlater. unfold CACHE_TTL. lra.
Defined.

(** ** A failed observation request *)

Lemma fetch_events_1 a w : fetch_events w (a :: w) = [a].
Proof. exact (fetch_events_app [a] w). Qed.

Lemma fetch_events_2 a b w : fetch_events w (a :: b :: w) = [b; a].
Proof. exact (fetch_events_app [a; b] w). Qed.

Lemma fetch_events_3 a b c w : fetch_events w (a :: b :: c :: w) = [c; b; a].
Proof. exact (fetch_events_app [a; b; c] w). Qed.

Lemma truncate_periods_object x y : truncate_periods x = Ok y -> exists d, y = JDict d.
Proof.
  unfold truncate_periods, py_get, py_get_default, py_setitem, rbind.
  destruct x as [| | | | | |fd]; try discriminate.
  destruct (py_or (default JNull (dict_get fd "properties")) (JDict [])) as [| | | | | |p];
    try discriminate.
  destruct (default JNull (dict_get p "periods")) as [| | | | |[|a ps]|];
    intros [= <-]; eauto.
Qed.

Lemma fetch_observation_failed L E stations_url hs w ro w' url hs' e :
  fetch_observation L E stations_url hs w = (ro, w') ->
  exists evs,
    w' = evs ++ w /\
    (rev evs !! 1%nat = Some (EvRequest url hs' (Raise e)) ->
     ro = if observation_caught e then Ok JNull else Raise e).
Proof.
  rewrite fetch_observation_stages. cbv zeta. destruct_stages; intros [= <- <-];
    first [ exists []; split; [reflexivity|]; discriminate
          | eexists [_]; split; [reflexivity|]; discriminate
          | eexists [_; _]; split; [reflexivity|]; cbn; intros [= <- <- <-];
            congruence ].
Qed.

(** X11: when the request for the latest observation, the fifth event of a
    run, raises a [URLError], a [ProxyError], a [TimeoutError] or a
    [ValueError], the run succeeds all the same: its payload has the forecast
    made from the forecast response and a null observation.  When it raises
    an exception of another class, the run fails with that exception. *)
Theorem latest_observation_failure L E w r w' url hs e :
  _fetch_from_nws L E w = (r, w') ->
  fetch_events w w' !! 4%nat = Some (EvRequest url hs (Raise e)) ->
  (observation_caught e = true ->
   exists url2 hs2 fd,
     fetch_events w w' !! 2%nat = Some (EvRequest url2 hs2 (Ok (JDict fd))) /\
     r = Ok (JDict [("forecast", served_forecast fd); ("observation", JNull)])) /\
  (observation_caught e = false -> r = Raise e).
Proof.
  rewrite fetch_from_nws_stages. cbv zeta.
  destruct (read_config L _) as [[[lat lon] contact]|e0].
  2: { intros [= <- <-]. rewrite fetch_events_1. discriminate. }
  destruct (urlopen E _ (JStr _) _) as [point_data|e0].
  2: { intros [= <- <-]. rewrite fetch_events_2. discriminate. }
  destruct (point_urls point_data) as [[forecast_url stations_url]|e0].
  2: { intros [= <- <-]. rewrite fetch_events_2. discriminate. }
  destruct (truthy forecast_url).
  2: { intros [= <- <-]. rewrite fetch_events_2. discriminate. }
  destruct (urlopen E _ forecast_url _) as [forecast_data|e0].
  2: { intros [= <- <-]. rewrite fetch_events_3. discriminate. }
  destruct (truncate_periods forecast_data) as [forecast_data'|e0] eqn:Htrunc.
  2: { intros [= <- <-]. rewrite fetch_events_3. discriminate. }
  destruct (fetch_observation L E stations_url _ _) as [ro w4] eqn:Hobs.
  destruct (fetch_observation_failed _ _ _ _ _ _ _ url hs e Hobs) as (evs & -> & Hro).
  destruct (truncate_periods_object _ _ Htrunc) as [d' ->].
  assert (Hev :
            fetch_events w
              (evs ++ EvRequest forecast_url (sent_headers (request_headers contact))
                        (Ok forecast_data)
                   :: EvRequest (JStr (point_url L lat lon))
                        (sent_headers (request_headers contact)) (Ok point_data)
                   :: EvConfig (config_json E (length w)) :: w) !! 4%nat
            = rev evs !! 1%nat).
  { exact (f_equal (fun l => l !! 4%nat) (fetch_events_ok evs _ _ _ w)). }
  intros Hr H4.
  assert (Hw : w' = evs ++ EvRequest forecast_url (sent_headers (request_headers contact))
                              (Ok forecast_data)
                         :: EvRequest (JStr (point_url L lat lon))
                              (sent_headers (request_headers contact)) (Ok point_data)
                         :: EvConfig (config_json E (length w)) :: w).
  { destruct ro as [o|e0]; [destruct (py_get_default _ _ _)|];
      injection Hr as _ <-; reflexivity. }
  subst w'. rewrite Hev in H4. specialize (Hro H4). subst ro.
  destruct (observation_caught e).
  - split; [intros _ | discriminate].
    destruct (py_get_default (JDict d') "properties" (JDict [])) as [forecast|e0] eqn:Hget;
      [|discriminate].
    destruct (truncate_periods_served _ _ _ Htrunc Hget) as (fd & -> & ->).
    injection Hr as <-. eexists _, _, fd. split; [|reflexivity].
    exact (f_equal (fun l => l !! 2%nat) (fetch_events_ok evs _ _ _ w)).
  - split; [discriminate | intros _]. injection Hr as <-. reflexivity.
Qed.

Lemma latest_observation_failure_witness :
  fst (_fetch_from_nws sample_lib observation_down [])
  = Ok (JDict [("forecast",
                JDict [("units", JStr "us");
                       ("periods", JList (map period [1; 2; 3; 4; 5; 6]%Z))]);
               ("observation", JNull)]).
Proof.
  destruct (_fetch_from_nws sample_lib observation_down []) as [r w'] eqn:Hf.
  destruct (latest_observation_failure sample_lib observation_down [] r w'
              (JStr "https://api.weather.gov/stations/KBKF/observations/latest")
              sample_headers (TimeoutError "timed out") Hf) as [Hcaught _].
  - apply (f_equal snd) in Hf. cbn [snd] in Hf. rewrite <- Hf. vm_compute. reflexivity.
  - destruct (Hcaught eq_refl) as (url2 & hs2 & fd & Hev & ->).
    apply (f_equal snd) in Hf. cbn [snd] in Hf. rewrite <- Hf in Hev.
    vm_compute in Hev. injection Hev as _ _ <-. reflexivity.
Defined.

(** ** More on concurrent callers *)

Lemma run_invariant L E (P : system -> Prop) :
  (forall s c s', step L E s c = Some s' -> P s -> P s') ->
  forall sched s s', run L E s sched = Some s' -> P s -> P s'.
Proof.
  intros Hstep. induction sched as [|c sched IH]; intros s s'; simpl.
  - intros [= <-]. auto.
  - destruct (step L E s c) as [s1|] eqn:Hs; [|discriminate].
    intros Hrun HP. eapply IH; [exact Hrun|]. eapply Hstep; eauto.
Qed.

Lemma step_held_by_fetcher L E s c s' :
  step L E s c = Some s' -> held_by_fetcher s'.
Proof.
  intros Hstep. destruct c as [t now|t].
  - apply step_Enter in Hstep as (Ht & _ & [(p & _ & ->) | (_ & ->)]);
      intros Hl; cbn [CACHE_LOCK threads] in *; [discriminate|].
    exists t, now. rewrite (set_thread_lookup _ _ _ _ _ Ht).
    destruct (decide (t = t)); congruence.
  - apply step_Leave in Hstep as (now & r & c' & w' & _ & _ & ->). intros [=].
Qed.

Lemma run_held_by_fetcher L E sched s s' :
  run L E s sched = Some s' -> held_by_fetcher s -> held_by_fetcher s'.
Proof.
  apply (run_invariant L E held_by_fetcher).
  intros s0 c s1 Hstep _. eapply step_held_by_fetcher; eauto.
Qed.

(** X12: in every state concurrent callers can reach, the lock is held
    exactly when a caller is inside the fetch pipeline.  The lock is free
    again after every fetch, failed ones included; in particular it is free
    when all callers have returned. *)
Theorem lock_held_while_fetching L E n c w sched s :
  run L E (arrive n c w) sched = Some s ->
  (CACHE_LOCK s = true <-> exists i now, threads s !! i = Some (Fetching now)) /\
  ((forall i th, threads s !! i = Some th -> is_returned th = true) ->
   CACHE_LOCK s = false).
Proof.
  intros Hrun.
  pose proof (run_mutex _ _ _ _ _ Hrun (mutex_arrive n c w)) as Hm.
  assert (Hheld : held_by_fetcher s).
  { eapply run_held_by_fetcher; [exact Hrun|]. intros [=]. }
  split.
  - split; [exact Hheld|]. intros (i & now & Hi). apply (Hm _ _ Hi).
  - intros Hall. destruct (CACHE_LOCK s) eqn:Hl; [|reflexivity].
    destruct (Hheld Hl) as (i & now & Hi). pose proof (Hall _ _ Hi). discriminate.
Qed.

Lemma lock_held_while_fetching_witness :
  exists s,
    run sample_lib unreachable (arrive 2 cold []) two_in_turn = Some s /\
    CACHE_LOCK s = false.
Proof.
  destruct (run sample_lib unreachable (arrive 2 cold []) two_in_turn) as [s|] eqn:Hrun;
    [|vm_compute in Hrun; discriminate].
  exists s. split; [reflexivity|].
  apply (lock_held_while_fetching _ _ _ _ _ _ _ Hrun).
  vm_compute in Hrun. injection Hrun as <-.
  intros [|[|i]] th; cbn; intros [= <-]; reflexivity.
Defined.

(** X13: concurrent callers never get stuck.  In every state they can
    reach in which some caller has not returned, a step can be taken: the
    caller inside the pipeline can leave it, or, when the lock is free, a
    waiting caller can enter. *)
Theorem callers_never_stuck L E n c w sched s :
  run L E (arrive n c w) sched = Some s ->
  (exists i th, threads s !! i = Some th /\ is_returned th = false) ->
  exists ch s', step L E s ch = Some s'.
Proof.
  intros Hrun (i & th & Hi & Hnot).
  pose proof (run_mutex _ _ _ _ _ Hrun (mutex_arrive n c w)) as Hm.
  assert (Hheld : held_by_fetcher s).
  { eapply run_held_by_fetcher; [exact Hrun|]. intros [=]. }
  destruct (CACHE_LOCK s) eqn:Hl.
  - destruct (Hheld Hl) as (j & now & Hj).
    exists (Leave j). unfold step. rewrite Hj.
    destruct (refresh L E now (store s) (net s)) as [[r c'] w']. eauto.
  - pose proof (mutex_unlocked _ _ _ Hm Hl Hi) as Hnf.
    destruct th as [|now|r]; try discriminate.
    exists (Enter i 0%Q). unfold step. rewrite Hi, Hl.
    destruct (cache_hit (store s) 0); eauto.
Qed.

Lemma callers_never_stuck_witness :
  exists ch s',
    step sample_lib healthy
      {| threads := [Fetching 0; Waiting]; CACHE_LOCK := true; store := cold; net := [] |}
      ch = Some s'.
Proof.
  assert (Hrun : run sample_lib healthy (arrive 2 cold []) [Enter 0 0]
                 = Some {| threads := [Fetching 0; Waiting]; CACHE_LOCK := true;
                           store := cold; net := [] |}) by reflexivity.
  apply (callers_never_stuck _ _ _ _ _ _ _ Hrun).
  exists 1%nat, Waiting. split; reflexivity.
Defined.

Lemma total_insert f ths : forall t th th',
  ths !! t = Some th ->
  (total f (<[t := th']> ths) + f th = total f ths + f th')%nat.
Proof.
  induction ths as [|x ths IH]; intros t th th'; [discriminate|].
  destruct t as [|t].
  - intros [= ->]. change (f th' + total f ths + f th = f th + total f ths + f th')%nat. lia.
  - intros Ht. change (ths !! t = Some th) in Ht. pose proof (IH _ _ th' Ht).
    change (f x + total f (<[t := th']> ths) + f th = f x + total f ths + f th')%nat. lia.
Qed.

Lemma total_replicate f n th : total f (replicate n th) = (n * f th)%nat.
Proof. induction n as [|n IH]; cbn; [reflexivity | rewrite IH; lia]. Qed.

Lemma total_has_returned ths : (total has_returned ths <= length ths)%nat.
Proof.
  induction ths as [|th ths IH]; cbn; [lia|].
  unfold has_returned at 1. destruct (is_returned th); lia.
Qed.

(** Every step uses up one of the two steps of a caller, and only a step
    that makes a caller return can add a run of the pipeline. *)
Lemma step_measures L E s c s' :
  step L E s c = Some s' ->
  (S (total steps_left (threads s')) <= total steps_left (threads s))%nat /\
  (pipeline_runs (net s') + total has_returned (threads s)
   <= pipeline_runs (net s) + total has_returned (threads s'))%nat.
Proof.
  intros Hstep. destruct c as [t now|t].
  - apply step_Enter in Hstep as (Ht & _ & [(p & _ & ->) | (_ & ->)]);
      cbn [threads net]; unfold set_thread.
    + pose proof (total_insert steps_left _ _ _ (Returned (Ok p)) Ht).
      pose proof (total_insert has_returned _ _ _ (Returned (Ok p)) Ht).
      cbn in *. lia.
    + pose proof (total_insert steps_left _ _ _ (Fetching now) Ht).
      pose proof (total_insert has_returned _ _ _ (Fetching now) Ht).
      cbn in *. lia.
  - apply step_Leave in Hstep as (now & r & c' & w' & Ht & Href & ->).
    cbn [threads net]; unfold set_thread.
    pose proof (total_insert steps_left _ _ _ (Returned r) Ht).
    pose proof (total_insert has_returned _ _ _ (Returned r) Ht).
    pose proof (refresh_runs L E now (store s) (net s)) as Hruns.
    rewrite Href in Hruns. cbn [snd] in Hruns. cbn in H, H0. lia.
Qed.

Lemma run_measures L E sched : forall s s',
  run L E s sched = Some s' ->
  (length sched + total steps_left (threads s') <= total steps_left (threads s))%nat /\
  (pipeline_runs (net s') + total has_returned (threads s)
   <= pipeline_runs (net s) + total has_returned (threads s'))%nat.
Proof.
  induction sched as [|c sched IH]; intros s s'; simpl.
  - intros [= <-]. lia.
  - destruct (step L E s c) as [s1|] eqn:Hstep; [|discriminate].
    intros Hrun. destruct (IH _ _ Hrun). destruct (step_measures _ _ _ _ _ Hstep). lia.
Qed.

(** X14: [n] concurrent callers take at most [2 * n] steps between them, so
    every schedule comes to an end, and they cause at most [n] runs of the
    fetch pipeline: a caller fetches at most once. *)
Theorem callers_bounded L E n c w sched s :
  run L E (arrive n c w) sched = Some s ->
  (length sched <= 2 * n)%nat /\
  (pipeline_runs (net s) <= pipeline_runs w + n)%nat.
Proof.
  intros Hrun. destruct (run_measures _ _ _ _ _ Hrun) as [Hsteps Hruns].
  pose proof (run_length _ _ _ _ _ Hrun) as Hlen.
  cbn [arrive threads net] in *.
  rewrite total_replicate in Hsteps. rewrite total_replicate in Hruns.
  rewrite length_replicate in Hlen.
  pose proof (total_has_returned (threads s)). cbn in *. lia.
Qed.

Lemma callers_bounded_witness :
  exists s,
    run sample_lib unreachable (arrive 2 cold []) two_in_turn = Some s /\
    (length two_in_turn <= 4)%nat /\ (pipeline_runs (net s) <= 2)%nat.
Proof.
  destruct (run sample_lib unreachable (arrive 2 cold []) two_in_turn) as [s|] eqn:Hrun;
    [|vm_compute in Hrun; discriminate].
  exists s. split; [reflexivity|].
  exact (callers_bounded _ _ _ _ _ _ _ Hrun).
Defined.

(** ** Concurrent callers, one after the other *)

Lemma run_serial L E sched : forall s s',
  run L E s sched = Some s' ->
  mutex s ->
  CACHE_LOCK s' = false ->
  (CACHE_LOCK s = false ->
   serial L E (calls sched) (threads s) (store s) (net s) = (threads s', store s', net s'))
  /\
  (forall t now r c1 w1,
     threads s !! t = Some (Fetching now) ->
     refresh L E now (store s) (net s) = (r, c1, w1) ->
     serial L E (calls sched) (<[t := Returned r]> (threads s)) c1 w1
     = (threads s', store s', net s')).
Proof.
  induction sched as [|ch sched IH]; intros s s'; simpl run.
  - intros [= <-] Hm Hfree. split; [reflexivity|].
    intros t now r c1 w1 Ht _. destruct (Hm _ _ Ht) as [Hl _]. congruence.
  - destruct (step L E s ch) as [s1|] eqn:Hstep; [|discriminate].
    intros Hrun Hm Hfree.
    pose proof (step_mutex _ _ _ _ _ Hstep Hm) as Hm1.
    destruct (IH _ _ Hrun Hm1 Hfree) as [IH1 IH2]. clear IH.
    destruct ch as [t now|t].
    + apply step_Enter in Hstep as (Ht & Hl & [(p & Hhit & ->) | (Hmiss & ->)]).
      * split.
        -- intros _. cbn [calls serial]. unfold _get_cached_weather. rewrite Hhit.
           apply IH1. reflexivity.
        -- intros t' now' r c1 w1 Ht'. destruct (Hm _ _ Ht') as [Hl' _]. congruence.
      * split.
        -- intros _. cbn [calls serial]. unfold _get_cached_weather. rewrite Hmiss.
           destruct (refresh L E now (store s) (net s)) as [[r c1] w1] eqn:Href.
           cbn [threads store net] in IH2.
           specialize (IH2 t now r c1 w1).
           unfold set_thread in IH2. rewrite list_insert_insert_eq in IH2.
           apply IH2; [|exact Href].
           apply list_lookup_insert_eq. eapply lookup_lt_Some; eauto.
        -- intros t' now' r c1 w1 Ht'. destruct (Hm _ _ Ht') as [Hl' _]. congruence.
    + apply step_Leave in Hstep as (now & r & c' & w' & Ht & Href & ->).
      split.
      * intros Hl. destruct (Hm _ _ Ht) as [Hl' _]. congruence.
      * intros t' now' r' c1 w1 Ht' Href'.
        assert (t' = t) as -> by exact (mutex_at_most_one s Hm t' t now' now Ht' Ht).
        rewrite Ht in Ht'. injection Ht' as <-.
        rewrite Href in Href'. injection Href' as <- <- <-.
        cbn [calls]. apply IH1. reflexivity.
Qed.

(** X15: a run of concurrent callers that ends with the lock free, and so
    every complete run, leaves the callers' results, the cache and the trace
    exactly as the same calls made one after the other would, in the order
    in which the callers took the lock and with the clock readings they
    took. *)
Theorem concurrent_calls_are_serial L E n c w sched s :
  run L E (arrive n c w) sched = Some s ->
  CACHE_LOCK s = false ->
  serial L E (calls sched) (replicate n Waiting) c w = (threads s, store s, net s).
Proof.
  intros Hrun Hfree.
  apply (run_serial L E sched _ _ Hrun (mutex_arrive n c w) Hfree). reflexivity.
Qed.

Lemma concurrent_calls_are_serial_witness :
  exists s,
    run sample_lib healthy (arrive 3 cold []) three_callers = Some s /\
    serial sample_lib healthy [(1%nat, 5%Q); (0%nat, 7%Q); (2%nat, 200%Q)]
      (replicate 3 Waiting) cold []
    = (threads s, store s, net s).
Proof.
  destruct (run sample_lib healthy (arrive 3 cold []) three_callers) as [s|] eqn:Hrun;
    [|vm_compute in Hrun; discriminate].
  exists s. split; [reflexivity|].
  apply (concurrent_calls_are_serial _ _ _ _ _ _ _ Hrun).
  vm_compute in Hrun. injection Hrun as <-. reflexivity.
Defined.

(** ** Keys that are present but hold no object *)

(** X16: a forecast response whose [properties] key is present but holds
    [null], or any other value that is not an object and counts as false,
    is served as it is: the [forecast] of the payload is that value, not an
    empty mapping.  The empty mapping is served only when the key is
    absent. *)
Theorem falsy_properties_served_as_is L E w payload w' url hs fd v :
  _fetch_from_nws L E w = (Ok payload, w') ->
  fetch_events w w' !! 2%nat = Some (EvRequest url hs (Ok (JDict fd))) ->
  dict_get fd "properties" = Some v ->
  truthy v = false ->
  exists observation, payload = JDict [("forecast", v); ("observation", observation)].
Proof.
  intros H Hev Hprops Hfalsy.
  destruct (successful_run_payload _ _ _ _ _ H) as (url' & hs' & fd' & Hev' & ->).
  rewrite Hev in Hev'. injection Hev' as _ _ <-.
  eexists. unfold served_forecast. rewrite Hprops.
  destruct v as [| | | | | |[|kv p]]; try reflexivity. discriminate.
Qed.

Lemma falsy_properties_served_as_is_witness :
  fst (_fetch_from_nws sample_lib null_properties [])
  = Ok (JDict [("forecast", JNull); ("observation", JDict [("textDescription", JStr "Clear")])]).
Proof.
  destruct (_fetch_from_nws sample_lib null_properties []) as [r w'] eqn:Hf.
  assert (Hr : exists payload, r = Ok payload).
  { apply (f_equal fst) in Hf. cbn [fst] in Hf. rewrite <- Hf. vm_compute. eauto. }
  destruct Hr as [payload ->].
  destruct (falsy_properties_served_as_is sample_lib null_properties [] payload w'
              (JStr "https://api.weather.gov/gridpoints/BOU/62,61/forecast")
              sample_headers [("properties", JNull)] JNull Hf) as [observation ->].
  - apply (f_equal snd) in Hf. cbn [snd] in Hf. rewrite <- Hf. vm_compute. reflexivity.
  - reflexivity.
  - reflexivity.
  - apply (f_equal fst) in Hf. cbn [fst] in Hf. rewrite <- Hf. vm_compute. reflexivity.
Defined.

(** X17: when [config.json] is a JSON object whose [weather] key is present
    but does not hold an object ([null], say), loading it raises
    [AttributeError], where an absent [weather] key gives the proxy's error
    about the coordinates.  The handler does not catch it: the request gets
    no HTTP answer from [do_GET], and nothing is requested upstream. *)
Theorem weather_not_an_object_unhandled L E path now c w d v :
  weather_route path = true ->
  cache_hit c now = None ->
  config_json E (length w) = FileJson (JDict d) ->
  dict_get d "weather" = Some v ->
  (forall wd, v <> JDict wd) ->
  do_GET L E path now c w
  = (Unhandled (no_attribute v "get"), c, EvConfig (FileJson (JDict d)) :: w).
Proof.
  intros Hroute Hmiss Hcfg Hweather Hnot.
  assert (Hread : read_config L (FileJson (JDict d)) = Raise (no_attribute v "get")).
  { cbn [read_config]. unfold parse_config, py_get_default at 1, rbind.
    rewrite Hweather. cbn [default from_option id].
    destruct v as [| | | | | |wd]; try reflexivity. exfalso. exact (Hnot wd eq_refl). }
  unfold do_GET. rewrite Hroute. cbn [negb].
  rewrite get_cached_weather_miss by exact Hmiss. unfold refresh.
  rewrite fetch_from_nws_stages. cbv zeta. rewrite Hcfg, Hread. reflexivity.
Qed.

Lemma weather_not_an_object_unhandled_witness :
  do_GET sample_lib weather_is_null "/weather" 0 cold []
  = (Unhandled (AttributeError "'NoneType' object has no attribute 'get'"), cold,
     [EvConfig (FileJson (JDict [("weather", JNull)]))]).
Proof.
  apply (weather_not_an_object_unhandled sample_lib weather_is_null "/weather" 0 cold []
           [("weather", JNull)] JNull).
  - reflexivity.
  - reflexivity.
  - reflexivity.
  - reflexivity.
  - discriminate.
Defined.

(** ** The station asked for the observation *)

(** X18: the latest observation is asked of the first station of the list
    only.  When the list of stations answers with a non-empty [features]
    list whose first element has the non-empty string [u] as [id], the
    pipeline joins [u/] with [observations/latest].  When [urljoin] rejects
    the id with a [ValueError], the fetch of the observation fails with that
    error, outside the [try], and no further request is sent.  Otherwise
    the one further request goes to the joined URL; whatever it answers,
    the stations that follow in the list are not contacted.  The outcome is
    that answer, or [None] when the request raised one of the four classes
    caught. *)
Theorem first_station_only L E stations_url hs w sd st rest u :
  truthy stations_url = true ->
  urlopen E (length w) stations_url (sent_headers hs) = Ok (JDict sd) ->
  dict_get sd "features" = Some (JList (JDict st :: rest)) ->
  dict_get st "id" = Some (JStr u) ->
  u <> "" ->
  fetch_observation L E stations_url hs w
  = match urljoin L (u +:+ "/") "observations/latest" with
    | Raise e =>
        (Raise e, [EvRequest stations_url (sent_headers hs) (Ok (JDict sd))] ++ w)
    | Ok joined =>
        let r4 := urlopen E (S (length w)) (JStr joined) (sent_headers hs) in
        (match r4 with
         | Ok observation => Ok observation
         | Raise e => if observation_caught e then Ok JNull else Raise e
         end,
         [EvRequest (JStr joined) (sent_headers hs) r4;
          EvRequest stations_url (sent_headers hs) (Ok (JDict sd))] ++ w)
    end.
Proof.
  intros Hsu Hst Hfeatures Hid Hu.
  rewrite fetch_observation_stages. cbv zeta. rewrite Hsu, Hst.
  unfold py_get, py_get_default. rewrite Hfeatures. cbn [default from_option id].
  cbn [py_or truthy py_index0]. rewrite Hid. cbn [default from_option id truthy].
  apply is_empty_false in Hu. rewrite Hu. cbn [negb py_add_str length].
  destruct (urljoin L (u +:+ "/") "observations/latest") as [joined|e]; [|reflexivity].
  destruct (urlopen E (S (length w)) _ _) as [observation|e]; [reflexivity|].
  destruct (observation_caught e); reflexivity.
Qed.

Lemma first_station_only_witness :
  fetch_observation sample_lib healthy
    (JStr "https://api.weather.gov/gridpoints/BOU/62,61/stations") [] []
  = (Ok sample_observation,
     [EvRequest (JStr "https://api.weather.gov/stations/KBKF/observations/latest") []
        (Ok sample_observation);
      EvRequest (JStr "https://api.weather.gov/gridpoints/BOU/62,61/stations") []
        (Ok sample_stations)])
  /\
  fetch_observation strict_lib bad_station
    (JStr "https://api.weather.gov/gridpoints/BOU/62,61/stations") [] []
  = (Raise (ValueError "Invalid IPv6 URL"),
     [EvRequest (JStr "https://api.weather.gov/gridpoints/BOU/62,61/stations") []
        (Ok bad_stations)]).
Proof.
  split.
  - apply (first_station_only sample_lib healthy
             (JStr "https://api.weather.gov/gridpoints/BOU/62,61/stations") [] []
             [("features", JList [JDict [("id", JStr "https://api.weather.gov/stations/KBKF")];
                                  JDict [("id", JStr "https://api.weather.gov/stations/KDEN")]])]
             [("id", JStr "https://api.weather.gov/stations/KBKF")]
             [JDict [("id", JStr "https://api.weather.gov/stations/KDEN")]]
             "https://api.weather.gov/stations/KBKF").
    + reflexivity.
    + reflexivity.
    + reflexivity.
    + reflexivity.
    + discriminate.
  - apply (first_station_only strict_lib bad_station
             (JStr "https://api.weather.gov/gridpoints/BOU/62,61/stations") [] []
             [("features", JList [JDict [("id", JStr "http://[bad")];
                                  JDict [("id", JStr "https://api.weather.gov/stations/KDEN")]])]
             [("id", JStr "http://[bad")]
             [JDict [("id", JStr "https://api.weather.gov/stations/KDEN")]]
             "http://[bad").
    + reflexivity.
    + reflexivity.
    + reflexivity.
    + reflexivity.
    + discriminate.
Defined.

(** With such an id the request is answered 502 after three upstream
    requests. *)
Example bad_station_id_is_fatal :
  fst (fst (do_GET strict_lib bad_station "/weather" 0 cold []))
  = SendError 502 "Upstream request failed: Invalid IPv6 URL" /\
  request_count (snd (do_GET strict_lib bad_station "/weather" 0 cold [])) = 3%nat.
Proof. split; vm_compute; reflexivity. Qed.

(** ** The answer with a body *)

(** X19: whenever the handler sends a body, the body is the serialisation of
    the payload the cache holds after the request, and the headers are
    [Content-Type: application/json; charset=utf-8], [Cache-Control:
    no-store] and [Content-Length] with the length of that body in decimal. *)
Theorem body_is_cached_payload L E path now c w code hs body c' w' :
  do_GET L E path now c w = (SendResponse code hs body, c', w') ->
  exists payload,
    _cache_payload c' = Some payload /\
    body = json_dumps L payload /\
    code = 200%nat /\
    hs = [("Content-Type", "application/json; charset=utf-8");
          ("Cache-Control", "no-store");
          ("Content-Length", str_of_nat (String.length body))].
Proof.
  unfold do_GET. destruct (weather_route path); cbn [negb]; [|discriminate].
  destruct (_get_cached_weather L E now c w) as [[[payload|e] c1] w1] eqn:Hget.
  - unfold render_payload. intros [= <- <- <- <- <-]. exists payload.
    split; [|auto]. revert Hget. unfold _get_cached_weather.
    destruct (cache_hit c now) as [p|] eqn:Hhit.
    + intros [= <- <- <-]. apply cache_hit_Some in Hhit. apply Hhit.
    + unfold refresh. destruct (_fetch_from_nws L E w) as [[p|e] w2]; [|discriminate].
      intros [= <- <- <-]. reflexivity.
  - destruct e as [m|m|m|m|m|m|m|m]; cbn [render_error upstream_caught]; unfold send_error;
      try discriminate;
      match goal with |- context [latin1 ?t] => destruct (latin1 t) end; discriminate.
Qed.

Lemma body_is_cached_payload_witness :
  exists payload,
    _cache_payload sample_warm = Some payload /\
    "{}" = json_dumps sample_lib payload.
Proof.
  destruct (body_is_cached_payload sample_lib unreachable "/weather" 100 sample_warm []
              200
              [("Content-Type", "application/json; charset=utf-8");
               ("Cache-Control", "no-store");
               ("Content-Length", "2")]
              "{}" sample_warm [])
    as (payload & Hp & Hbody & _).
  - vm_compute. reflexivity.
  - exists payload. auto.
Defined.
